(** * A shallow embedding of the Tactical RMM Terraform provider

    The provider maps Terraform resources and data sources onto JSON requests
    against the Tactical RMM REST API.  Every handler of the Go sources is
    embedded as a program that may call the transport client; the remote
    server is a parameter of the interpreter, so every theorem holds for all
    servers. *)

From Stdlib Require Import ZArith QArith Ascii String.
From stdpp Require Import base option list gmap strings pretty.

Local Open Scope Z_scope.

(** ** JSON values, as [encoding/json] decodes them into [interface{}] *)

(** A JSON number decodes to a [float64]; every finite [float64] is a
    rational, so numbers are carried as [Q]. *)
#[warnings="-register-all"]
Inductive json : Type :=
| JNull
| JBool (b : bool)
| JNumber (f : Q)
| JString (s : string)
| JArray (l : list json)
| JObject (m : gmap string json).

(** Go's [int64(f)] on a [float64]: truncation toward zero (Go leaves the
    result unspecified when the truncated value does not fit 64 bits). *)
Definition int64 (f : Q) : Z := Z.quot (Qnum f) (Zpos (Qden f)).

(** Go's [float64(n)] / an integer literal stored in the body map. *)
Definition JInt (n : Z) : json := JNumber (inject_Z n).

(** Type assertions [v, ok := m[k].(T)] on the result of a map lookup: a
    missing key yields the nil interface, on which every assertion fails. *)
Definition as_string (v : option json) : option string :=
  match v with Some (JString s) => Some s | _ => None end.
Definition as_float64 (v : option json) : option Q :=
  match v with Some (JNumber f) => Some f | _ => None end.
Definition as_bool (v : option json) : option bool :=
  match v with Some (JBool b) => Some b | _ => None end.
Definition as_slice (v : option json) : option (list json) :=
  match v with Some (JArray l) => Some l | _ => None end.

(** [s] is not the empty string. *)
Definition nonempty (s : string) : bool :=
  match s with EmptyString => false | String _ _ => true end.

(** Go errors are carried by their text ([err.Error()]). *)
Definition error : Type := string.

(** ** Terraform plugin framework values *)
Module types.

(** A framework value is null, unknown or known; the zero value of the Go
    struct is null. *)
Inductive Value (A : Type) : Type :=
| Null
| Unknown
| Known (a : A).
Arguments Null {A}.
Arguments Unknown {A}.
Arguments Known {A} a.

Definition IsNull {A} (v : Value A) : bool :=
  match v with Null => true | _ => false end.
Definition IsUnknown {A} (v : Value A) : bool :=
  match v with Unknown => true | _ => false end.

Definition String : Type := Value string.
Definition Int64 : Type := Value Z.
Definition Bool : Type := Value bool.
(** A list of strings: its elements are framework strings themselves. *)
Definition List : Type := Value (list String).

Definition StringValue (s : string) : String := Known s.
Definition StringNull : String := Null.
Definition Int64Value (n : Z) : Int64 := Known n.
Definition BoolValue (b : bool) : Bool := Known b.
Definition ListNull : List := Null.

Definition ValueString (v : String) : string :=
  match v with Known s => s | _ => EmptyString end.
Definition ValueInt64 (v : Int64) : Z :=
  match v with Known n => n | _ => 0 end.
Definition ValueBool (v : Bool) : bool :=
  match v with Known b => b | _ => false end.

(** [types.ListValueMust(types.StringType, elems)]: [elems] is a slice of
    [attr.Value]; a slot that was never assigned holds the nil interface
    ([None]) and makes the constructor panic ([None]). *)
Definition ListValueMust (elems : list (option String)) : option List :=
  Known <$> mapM id elems.

End types.

(** ** Diagnostics *)
Module diag.

Inductive Severity : Type := SeverityError | SeverityWarning.

Record Diagnostic : Type := mk
  { severity : Severity; Summary : string; Detail : string }.

Definition Diagnostics : Type := list Diagnostic.

(** [diags.AddError(summary, detail)] *)
Definition AddError (ds : Diagnostics) (summary detail : string) : Diagnostics :=
  ds ++ [mk SeverityError summary detail].

Definition is_error (d : Diagnostic) : bool :=
  match severity d with SeverityError => true | SeverityWarning => false end.

(** [diags.HasError()] *)
Definition HasError (ds : Diagnostics) : bool := existsb is_error ds.

End diag.

(** ** The parts of the Go libraries the handlers rely on

    The texts of library errors and the verdict of [net/url] on a URL are
    not defined by this repository: they are taken as parameters. *)
Class GoLib : Type :=
  { (** [url.Parse] inside [http.NewRequest]: the error, when there is one *)
    url_error : string -> option error;
    (** [json.UnmarshalTypeError]: decoded value, Go type of the target *)
    json_type_error : json -> string -> error;
    (** [strconv.NumError] of [ParseInt]: input and reason *)
    strconv_error : string -> string -> error;
    (** the framework's diagnostic for a list that does not convert to
        [[]string] (unknown list, null or unknown element) *)
    elements_as_error : diag.Diagnostic }.

(** ** HTTP *)
Module http.

Definition StatusOK : Z := 200.
Definition StatusNoContent : Z := 204.
Definition StatusNotFound : Z := 404.

(** The request body is the map handed to [json.Marshal]. *)
Record Request : Type := mkRequest
  { Method : string; URL : string; ReqBody : option (gmap string json) }.

(** A response body: its text, and what [json.NewDecoder(body).Decode]
    into an [interface{}] finds in it (the decoder's error, or the value). *)
Record Body : Type := mkBody
  { Text : string; Decoded : error + json }.

Record Response : Type := mkResponse
  { StatusCode : Z; body : Body }.

(** [http.NewRequest(method, url, body)] with one of the methods GET, POST,
    PUT, DELETE: it fails exactly when the URL does not parse. *)
Definition NewRequest `{GoLib} (method url : string)
    (b : option (gmap string json)) : error + Request :=
  match url_error url with
  | Some e => inl e
  | None => inr (mkRequest method url b)
  end.

End http.

(** [json.NewDecoder(body).Decode(&m)] with [m : map[string]interface{}]:
    an object fills the map, [null] leaves the nil map (which reads like the
    empty map), anything else is a type error. *)
Definition decode_map `{GoLib} (b : http.Body) : error + gmap string json :=
  match http.Decoded b with
  | inl e => inl e
  | inr (JObject m) => inr m
  | inr JNull => inr ∅
  | inr j => inl (json_type_error j "map[string]interface {}")
  end.

(** One element of a decoded [[]map[string]interface{}]. *)
Definition decode_element `{GoLib} (j : json) : error + gmap string json :=
  match j with
  | JObject m => inr m
  | JNull => inr ∅
  | _ => inl (json_type_error j "map[string]interface {}")
  end.

(** The first type error among the elements, or all the maps. *)
Fixpoint decode_elements `{GoLib} (l : list json) : error + list (gmap string json) :=
  match l with
  | [] => inr []
  | j :: l' =>
      match decode_element j, decode_elements l' with
      | inl e, _ => inl e
      | inr _, inl e => inl e
      | inr m, inr ms => inr (m :: ms)
      end
  end.

(** [json.NewDecoder(body).Decode(&ms)] with [ms : []map[string]interface{}]. *)
Definition decode_maps `{GoLib} (b : http.Body) : error + list (gmap string json) :=
  match http.Decoded b with
  | inl e => inl e
  | inr (JArray l) => decode_elements l
  | inr JNull => inr []
  | inr j => inl (json_type_error j "[]map[string]interface {}")
  end.

(** ** The transport client *)

(** [ClientConfig]; the [*http.Client] it holds is the remote server of the
    interpreter below. *)
Record ClientConfig : Type := mkClientConfig
  { BaseURL : string; APIKey : string }.

(** ** Handler programs

    A handler is a tree of calls to [ClientConfig.Do]: [Do c req k] is the
    call [c.Do(req)], in which the client attaches the X-API-KEY and
    Content-Type headers and sends the request, and [k] continues with the
    error or the response.  A Go runtime panic ends the program. *)
Inductive prog (A : Type) : Type :=
| Ret (a : A)
| Do (c : ClientConfig) (req : http.Request) (k : error + http.Response -> prog A)
| Panic.
Arguments Ret {A} a.
Arguments Do {A} c req k.
Arguments Panic {A}.

(** What [ClientConfig.Do] exchanged with the server. *)
Definition exchange : Type := http.Request * (error + http.Response).

Section Run.
(** The server: any state, any reaction to a request made with a given
    client configuration (the configuration carries the API key that
    [ClientConfig.Do] attaches). *)
Context {server : Type}.
Variable serve : ClientConfig -> http.Request -> server -> (error + http.Response) * server.

(** Runs a handler against the server: its result ([None] after a panic),
    the server afterwards, and the exchanges in order. *)
Fixpoint run {A} (p : prog A) (w : server) : option A * server * list exchange :=
  match p with
  | Ret a => (Some a, w, [])
  | Panic => (None, w, [])
  | Do c req k =>
      let '(r, w1) := serve c req w in
      let '(a, w2, log) := run (k r) w1 in
      (a, w2, (req, r) :: log)
  end.

Definition result {A} (p : prog A) (w : server) : option A := (run p w).1.1.
Definition server_after {A} (p : prog A) (w : server) : server := (run p w).1.2.
Definition exchanges {A} (p : prog A) (w : server) : list exchange := (run p w).2.
Definition requests {A} (p : prog A) (w : server) : list http.Request :=
  (exchanges p w).*1.
End Run.

(** What a handler leaves in its response: the diagnostics and the state
    ([None]: no state, the resource is absent). *)
Record Response (M : Type) : Type := mkResp
  { Diagnostics : diag.Diagnostics; State : option M }.
Arguments mkResp {M} _ _.
Arguments Diagnostics {M} _.
Arguments State {M} _.

(** [resp.Diagnostics.AddError(summary, detail); return] with the state left
    as it was. *)
Definition fail {M} (ds : diag.Diagnostics) (st : option M) (summary detail : string)
    : prog (Response M) :=
  Ret (mkResp (diag.AddError ds summary detail) st).

(** [fmt.Sprintf] with the verb [%d]. *)
Definition fmt_d (n : Z) : string := pretty n.

(** ** provider.go: configuration *)
Module trmmProvider.

Record trmmProviderModel : Type := mkModel
  { Endpoint : types.String; APIKey : types.String }.

(** The process environment, as [os.Getenv] would read it. *)
Definition environ : Type := gmap string string.

Record ConfigureResponse : Type := mkConfigureResponse
  { Diagnostics : diag.Diagnostics;
    DataSourceData : option ClientConfig;
    ResourceData : option ClientConfig }.

Definition missing_api_key_detail : string :=
  "The provider cannot create the Tactical RMM API client as there is a missing or empty value for the API key. " +:+
  "Set the api_key value in the configuration or use the TRMM_API_KEY environment variable. " +:+
  "If either is already set, ensure the value is not empty.".

(** [Configure]: the environment is in scope of the process but the
    function never consults it. *)
Definition Configure (env : environ) (config : trmmProviderModel) : ConfigureResponse :=
  let endpoint := types.ValueString (Endpoint config) in
  let apiKey := types.ValueString (APIKey config) in
  let endpoint := if nonempty endpoint then endpoint else "https://api.tactical-rmm.com" in
  if nonempty apiKey then
    let clientConfig := mkClientConfig endpoint apiKey in
    mkConfigureResponse [] (Some clientConfig) (Some clientConfig)
  else
    mkConfigureResponse (diag.AddError [] "Missing API Key" missing_api_key_detail) None None.

End trmmProvider.

(** ** Helpers shared by the handlers *)

(** [for _, x := range xs { if name, ok := x["name"].(string); ok && name == target { found = x; break } }] *)
Definition has_name (target : string) (x : gmap string json) : bool :=
  match as_string (x !! "name") with
  | Some name => bool_decide (name = target)
  | None => false
  end.

(** [if id, ok := x["id"].(float64); ok && int64(id) == target] *)
Definition has_id (target : Z) (x : gmap string json) : bool :=
  match as_float64 (x !! "id") with
  | Some id => bool_decide (int64 id = target)
  | None => false
  end.

(** The loop that fills [make([]attr.Value, len(xs))]: a slot is assigned only
    when the element is a string. *)
Definition attr_values (xs : list json) : list (option types.String) :=
  (fun x => types.StringValue <$> as_string (Some x)) <$> xs.

Definition known_string (v : types.String) : option string :=
  match v with types.Known s => Some s | _ => None end.

(** [var xs []string; diags := l.ElementsAs(ctx, &xs, false)]: the
    diagnostics and the slice ([None]: left nil). *)
Definition ElementsAs `{GoLib} (l : types.List) : diag.Diagnostics * option (list string) :=
  match l with
  | types.Null => ([], None)
  | types.Unknown => ([elements_as_error], None)
  | types.Known elems =>
      match mapM known_string elems with
      | Some xs => ([], Some xs)
      | None => ([elements_as_error], None)
      end
  end.

(** [json.Marshal] of a [[]string]: the nil slice is [null]. *)
Definition JStrings (xs : option (list string)) : json :=
  match xs with
  | Some l => JArray (JString <$> l)
  | None => JNull
  end.

(** [strconv.ParseUint(s, 10, 64)]: the digit loop, with [n] the value so
    far.  [inl true] is a range error, [inl false] a syntax error. *)
Definition is_digit (c : ascii) : bool :=
  (48 <=? Z.of_nat (nat_of_ascii c)) && (Z.of_nat (nat_of_ascii c) <=? 57).

Fixpoint parse_digits (n : Z) (s : string) : bool + Z :=
  match s with
  | EmptyString => inr n
  | String c s' =>
      if negb (is_digit c) then inl false
      else if (2 ^ 64 - 1) / 10 + 1 <=? n then inl true
      else
        let n1 := n * 10 + (Z.of_nat (nat_of_ascii c) - 48) in
        if 2 ^ 64 - 1 <? n1 then inl true else parse_digits n1 s'
  end.

Definition ParseUint (s : string) : bool + Z :=
  match s with
  | EmptyString => inl false
  | _ => parse_digits 0 s
  end.

(** [strconv.ParseInt(s, 10, 64)] *)
Definition ParseInt `{GoLib} (s0 : string) : error + Z :=
  match s0 with
  | EmptyString => inl (strconv_error s0 "invalid syntax")
  | String c rest =>
      let '(neg, s) :=
        if bool_decide (c = "+"%char) then (false, rest)
        else if bool_decide (c = "-"%char) then (true, rest)
        else (false, s0) in
      match ParseUint s with
      | inl false => inl (strconv_error s0 "invalid syntax")
      | inl true => inl (strconv_error s0 "value out of range")
      | inr un =>
          if negb neg && (2 ^ 63 <=? un) then inl (strconv_error s0 "value out of range")
          else if neg && (2 ^ 63 <? un) then inl (strconv_error s0 "value out of range")
          else inr (if neg then - un else un)
      end
  end.

(** ** script_resource.go *)
Module ScriptResource.

Record ScriptResourceModel : Type := mkModel
  { Id : types.Int64;
    Name : types.String;
    Description : types.String;
    Shell : types.String;
    ScriptType : types.String;
    Category : types.String;
    ScriptBody : types.String;
    DefaultTimeout : types.Int64;
    Favorite : types.Bool;
    Hidden : types.Bool;
    RunAsUser : types.Bool;
    Args : types.List;
    EnvVars : types.List;
    SupportedPlatforms : types.List;
    Syntax : types.String }.

(** The optional scalar fields that Create and Update send alike. *)
Definition optional_fields (data : ScriptResourceModel) (timeout_default : option Z)
    (body : gmap string json) : gmap string json :=
  let body :=
    if types.IsNull (Description data) then body
    else <["description" := JString (types.ValueString (Description data))]> body in
  let body :=
    if types.IsNull (Category data) then body
    else <["category" := JString (types.ValueString (Category data))]> body in
  let body :=
    if types.IsNull (DefaultTimeout data) then
      match timeout_default with
      | Some n => <["default_timeout" := JInt n]> body
      | None => body
      end
    else <["default_timeout" := JInt (types.ValueInt64 (DefaultTimeout data))]> body in
  let body :=
    if types.IsNull (Favorite data) then body
    else <["favorite" := JBool (types.ValueBool (Favorite data))]> body in
  let body :=
    if types.IsNull (Hidden data) then body
    else <["hidden" := JBool (types.ValueBool (Hidden data))]> body in
  let body :=
    if types.IsNull (RunAsUser data) then body
    else <["run_as_user" := JBool (types.ValueBool (RunAsUser data))]> body in
  if types.IsNull (Syntax data) then body
  else <["syntax" := JString (types.ValueString (Syntax data))]> body.

(** [// Handle arrays]: the three lists, with the diagnostics of
    [ElementsAs] appended in order. *)
Definition array_fields `{GoLib} (data : ScriptResourceModel) (body : gmap string json)
    : diag.Diagnostics * gmap string json :=
  let '(ds1, body) :=
    if types.IsNull (Args data) then ([], body)
    else let '(ds, args) := ElementsAs (Args data) in
         (ds, <["args" := JStrings args]> body) in
  let '(ds2, body) :=
    if types.IsNull (EnvVars data) then ([], body)
    else let '(ds, envVars) := ElementsAs (EnvVars data) in
         (ds, <["env_vars" := JStrings envVars]> body) in
  let '(ds3, body) :=
    if types.IsNull (SupportedPlatforms data) then ([], body)
    else let '(ds, platforms) := ElementsAs (SupportedPlatforms data) in
         (ds, <["supported_platforms" := JStrings platforms]> body) in
  (ds1 ++ ds2 ++ ds3, body).

(** The body of the POST request of Create. *)
Definition create_body `{GoLib} (data : ScriptResourceModel)
    : diag.Diagnostics * gmap string json :=
  let body : gmap string json :=
    <["name" := JString (types.ValueString (Name data))]>
    (<["shell" := JString (types.ValueString (Shell data))]>
    (<["script_body" := JString (types.ValueString (ScriptBody data))]>
    (<["script_type" := JString "userdefined"]> ∅))) in
  array_fields data (optional_fields data (Some 90) body).

(** One list field after Create: kept as planned when it was null in the
    plan, else the list of the response, else the empty list.  [None] is a
    panic of [ListValueMust]. *)
Definition created_list (wasNull : bool) (planned : types.List) (v : option json)
    : option types.List :=
  if negb wasNull then
    match as_slice v with
    | Some xs => types.ListValueMust (attr_values xs)
    | None => types.ListValueMust []
    end
  else Some planned.

(** [// Update model with response data] of Create. *)
Definition created (data : ScriptResourceModel) (createdScript : gmap string json)
    (argsWasNull envVarsWasNull platformsWasNull : bool) : option ScriptResourceModel :=
  let id :=
    match as_float64 (createdScript !! "id") with
    | Some id => types.Int64Value (int64 id)
    | None => Id data
    end in
  let scriptType :=
    match as_string (createdScript !! "script_type") with
    | Some scriptType => types.StringValue scriptType
    | None => types.StringValue "userdefined"
    end in
  let defaultTimeout :=
    match as_float64 (createdScript !! "default_timeout") with
    | Some timeout => types.Int64Value (int64 timeout)
    | None =>
        if types.IsNull (DefaultTimeout data) || types.IsUnknown (DefaultTimeout data)
        then types.Int64Value 90 else DefaultTimeout data
    end in
  let flag (key : string) :=
    match as_bool (createdScript !! key) with
    | Some b => types.BoolValue b
    | None => types.BoolValue false
    end in
  args ← created_list argsWasNull (Args data) (createdScript !! "args");
  envVars ← created_list envVarsWasNull (EnvVars data) (createdScript !! "env_vars");
  platforms ← created_list platformsWasNull (SupportedPlatforms data)
                (createdScript !! "supported_platforms");
  Some {| Id := id; Name := Name data; Description := Description data;
          Shell := Shell data; ScriptType := scriptType; Category := Category data;
          ScriptBody := ScriptBody data; DefaultTimeout := defaultTimeout;
          Favorite := flag "favorite"; Hidden := flag "hidden";
          RunAsUser := flag "run_as_user";
          Args := args; EnvVars := envVars; SupportedPlatforms := platforms;
          Syntax := Syntax data |}.

(** [Create]: [data] is the plan; the response state starts empty. *)
Definition Create `{GoLib} (c : ClientConfig) (data : ScriptResourceModel)
    : prog (Response ScriptResourceModel) :=
  let argsWasNull := types.IsNull (Args data) in
  let envVarsWasNull := types.IsNull (EnvVars data) in
  let platformsWasNull := types.IsNull (SupportedPlatforms data) in
  let '(ds, body) := create_body data in
  match http.NewRequest "POST" (BaseURL c +:+ "/scripts/") (Some body) with
  | inl err => fail ds None "Client Error" ("Unable to create script, got error: " +:+ err)
  | inr httpReq =>
  Do c httpReq (fun r =>
  match r with
  | inl err => fail ds None "Client Error" ("Unable to create script, got error: " +:+ err)
  | inr httpResp =>
  if negb (http.StatusCode httpResp =? http.StatusOK) then
    fail ds None "Client Error"
      ("Unable to create script, status code: " +:+ fmt_d (http.StatusCode httpResp))
  else
  match http.NewRequest "GET" (BaseURL c +:+ "/scripts/") None with
  | inl err => fail ds None "Client Error" ("Unable to list scripts, got error: " +:+ err)
  | inr listReq =>
  Do c listReq (fun r =>
  match r with
  | inl err => fail ds None "Client Error" ("Unable to list scripts, got error: " +:+ err)
  | inr listResp =>
  match decode_maps (http.body listResp) with
  | inl err =>
      fail ds None "Client Error" ("Unable to parse scripts list, got error: " +:+ err)
  | inr scripts =>
  match List.find (has_name (types.ValueString (Name data))) scripts with
  | None => fail ds None "Client Error" "Unable to find created script"
  | Some createdScript =>
  match created data createdScript argsWasNull envVarsWasNull platformsWasNull with
  | None => Panic
  | Some data => Ret (mkResp ds (Some data))
  end end end end) end end) end.

(** One list field after Read: replaced only by a non-empty list of the
    response. *)
Definition read_list (old : types.List) (v : option json) : option types.List :=
  match as_slice v with
  | Some (x :: xs) => types.ListValueMust (attr_values (x :: xs))
  | _ => Some old
  end.

Definition read_string (old : types.String) (v : option json) : types.String :=
  match as_string v with Some s => types.StringValue s | None => old end.

(** [if s, ok := v.(string); ok && s != empty] *)
Definition read_nonempty_string (old : types.String) (v : option json) : types.String :=
  match as_string v with
  | Some s => if nonempty s then types.StringValue s else old
  | None => old
  end.

Definition read_bool (old : types.Bool) (v : option json) : types.Bool :=
  match as_bool v with Some b => types.BoolValue b | None => old end.

Definition read_int64 (old : types.Int64) (v : option json) : types.Int64 :=
  match as_float64 v with Some f => types.Int64Value (int64 f) | None => old end.

(** [// Update model with response data] of Read. *)
Definition refreshed (data : ScriptResourceModel) (result : gmap string json)
    : option ScriptResourceModel :=
  args ← read_list (Args data) (result !! "args");
  envVars ← read_list (EnvVars data) (result !! "env_vars");
  platforms ← read_list (SupportedPlatforms data) (result !! "supported_platforms");
  Some {| Id := Id data;
          Name := read_string (Name data) (result !! "name");
          Description := read_string (Description data) (result !! "description");
          Shell := read_string (Shell data) (result !! "shell");
          ScriptType := read_string (ScriptType data) (result !! "script_type");
          Category := read_nonempty_string (Category data) (result !! "category");
          ScriptBody := read_string (ScriptBody data) (result !! "script_body");
          DefaultTimeout := read_int64 (DefaultTimeout data) (result !! "default_timeout");
          Favorite := read_bool (Favorite data) (result !! "favorite");
          Hidden := read_bool (Hidden data) (result !! "hidden");
          RunAsUser := read_bool (RunAsUser data) (result !! "run_as_user");
          Args := args; EnvVars := envVars; SupportedPlatforms := platforms;
          Syntax := read_nonempty_string (Syntax data) (result !! "syntax") |}.

Definition entity_url (c : ClientConfig) (id : types.Int64) : string :=
  BaseURL c +:+ "/scripts/" +:+ fmt_d (types.ValueInt64 id) +:+ "/".

(** [Read]: [data] is the prior state, which the response state starts
    from. *)
Definition Read `{GoLib} (c : ClientConfig) (data : ScriptResourceModel)
    : prog (Response ScriptResourceModel) :=
  match http.NewRequest "GET" (entity_url c (Id data)) None with
  | inl err =>
      fail [] (Some data) "Client Error" ("Unable to read script, got error: " +:+ err)
  | inr httpReq =>
  Do c httpReq (fun r =>
  match r with
  | inl err =>
      fail [] (Some data) "Client Error" ("Unable to read script, got error: " +:+ err)
  | inr httpResp =>
  if http.StatusCode httpResp =? http.StatusNotFound then
    (* resp.State.RemoveResource(ctx) *)
    Ret (mkResp [] None)
  else if negb (http.StatusCode httpResp =? http.StatusOK) then
    fail [] (Some data) "Client Error"
      ("Unable to read script, status code: " +:+ fmt_d (http.StatusCode httpResp))
  else
  match decode_map (http.body httpResp) with
  | inl err =>
      fail [] (Some data) "Client Error" ("Unable to parse response, got error: " +:+ err)
  | inr result =>
  match refreshed data result with
  | None => Panic
  | Some data => Ret (mkResp [] (Some data))
  end end end) end.

(** The body of the PUT request of Update. *)
Definition update_body `{GoLib} (data : ScriptResourceModel)
    : diag.Diagnostics * gmap string json :=
  let body : gmap string json :=
    <["name" := JString (types.ValueString (Name data))]>
    (<["shell" := JString (types.ValueString (Shell data))]>
    (<["script_body" := JString (types.ValueString (ScriptBody data))]> ∅)) in
  array_fields data (optional_fields data None body).

(** [else if v.IsNull() || v.IsUnknown() { v = types.BoolValue(false) }] *)
Definition updated_bool (old : types.Bool) (v : option json) : types.Bool :=
  match as_bool v with
  | Some b => types.BoolValue b
  | None => if types.IsNull old || types.IsUnknown old then types.BoolValue false else old
  end.

(** [// Update computed fields from the response] of Update. *)
Definition updated (data : ScriptResourceModel) (result : gmap string json)
    : ScriptResourceModel :=
  {| Id := Id data; Name := Name data; Description := Description data;
     Shell := Shell data;
     ScriptType :=
       match as_string (result !! "script_type") with
       | Some scriptType => types.StringValue scriptType
       | None => types.StringValue "userdefined"
       end;
     Category := Category data; ScriptBody := ScriptBody data;
     DefaultTimeout :=
       match as_float64 (result !! "default_timeout") with
       | Some timeout => types.Int64Value (int64 timeout)
       | None =>
           if types.IsNull (DefaultTimeout data) || types.IsUnknown (DefaultTimeout data)
           then types.Int64Value 90 else DefaultTimeout data
       end;
     Favorite := updated_bool (Favorite data) (result !! "favorite");
     Hidden := updated_bool (Hidden data) (result !! "hidden");
     RunAsUser := updated_bool (RunAsUser data) (result !! "run_as_user");
     Args := Args data; EnvVars := EnvVars data;
     SupportedPlatforms := SupportedPlatforms data; Syntax := Syntax data |}.

(** [data.Id = state.Id] *)
Definition with_id (data : ScriptResourceModel) (id : types.Int64) : ScriptResourceModel :=
  {| Id := id; Name := Name data; Description := Description data;
     Shell := Shell data; ScriptType := ScriptType data; Category := Category data;
     ScriptBody := ScriptBody data; DefaultTimeout := DefaultTimeout data;
     Favorite := Favorite data; Hidden := Hidden data; RunAsUser := RunAsUser data;
     Args := Args data; EnvVars := EnvVars data;
     SupportedPlatforms := SupportedPlatforms data; Syntax := Syntax data |}.

(** [Update]: [plan] holds the planned values, [state] the prior state,
    which the response state starts from. *)
Definition Update `{GoLib} (c : ClientConfig) (plan state : ScriptResourceModel)
    : prog (Response ScriptResourceModel) :=
  let data := with_id plan (Id state) in
  let '(ds, body) := update_body data in
  match http.NewRequest "PUT" (entity_url c (Id data)) (Some body) with
  | inl err =>
      fail ds (Some state) "Client Error" ("Unable to update script, got error: " +:+ err)
  | inr httpReq =>
  Do c httpReq (fun r =>
  match r with
  | inl err =>
      fail ds (Some state) "Client Error" ("Unable to update script, got error: " +:+ err)
  | inr httpResp =>
  if negb (http.StatusCode httpResp =? http.StatusOK) then
    fail ds (Some state) "Client Error"
      ("Unable to update script, status code: " +:+ fmt_d (http.StatusCode httpResp))
  else
  match http.NewRequest "GET" (entity_url c (Id data)) None with
  | inl err =>
      fail ds (Some state) "Client Error"
        ("Unable to read updated script, got error: " +:+ err)
  | inr getReq =>
  Do c getReq (fun r =>
  match r with
  | inl err =>
      fail ds (Some state) "Client Error"
        ("Unable to read updated script, got error: " +:+ err)
  | inr getResp =>
  if negb (http.StatusCode getResp =? http.StatusOK) then
    fail ds (Some state) "Client Error"
      ("Unable to read updated script, status code: " +:+ fmt_d (http.StatusCode getResp))
  else
  match decode_map (http.body getResp) with
  | inl err =>
      fail ds (Some state) "Client Error"
        ("Unable to parse response, got error: " +:+ err)
  | inr result => Ret (mkResp ds (Some (updated data result)))
  end end) end end) end.

(** The state after [resp.State.SetAttribute(ctx, path.Root("id"), id)] on
    the empty state of an import: every other attribute is null. *)
Definition imported (id : Z) : ScriptResourceModel :=
  {| Id := types.Int64Value id; Name := types.Null; Description := types.Null;
     Shell := types.Null; ScriptType := types.Null; Category := types.Null;
     ScriptBody := types.Null; DefaultTimeout := types.Null; Favorite := types.Null;
     Hidden := types.Null; RunAsUser := types.Null; Args := types.Null;
     EnvVars := types.Null; SupportedPlatforms := types.Null; Syntax := types.Null |}.

(** [ImportState]: [ID] is the identifier given on the command line. *)
Definition ImportState `{GoLib} (ID : string) : Response ScriptResourceModel :=
  match ParseInt ID with
  | inl err => mkResp (diag.AddError [] "Invalid ID" ("Unable to parse ID: " +:+ err)) None
  | inr id => mkResp [] (Some (imported id))
  end.

(** [Delete]: [data] is the prior state.  The handler answers with its
    diagnostics only; it never touches the state of the response. *)
Definition Delete `{GoLib} (c : ClientConfig) (data : ScriptResourceModel)
    : prog diag.Diagnostics :=
  match http.NewRequest "DELETE" (entity_url c (Id data)) None with
  | inl err =>
      Ret (diag.AddError [] "Client Error" ("Unable to delete script, got error: " +:+ err))
  | inr httpReq =>
  Do c httpReq (fun r =>
  match r with
  | inl err =>
      Ret (diag.AddError [] "Client Error" ("Unable to delete script, got error: " +:+ err))
  | inr httpResp =>
  if negb (http.StatusCode httpResp =? http.StatusOK)
     && negb (http.StatusCode httpResp =? http.StatusNoContent) then
    Ret (diag.AddError [] "Client Error"
           ("Unable to delete script, status code: " +:+ fmt_d (http.StatusCode httpResp)))
  else Ret []
  end) end.

End ScriptResource.

(** ** script_snippet_resource.go *)
Module ScriptSnippetResource.

Record ScriptSnippetResourceModel : Type := mkModel
  { Id : types.Int64;
    Name : types.String;
    Desc : types.String;
    Code : types.String;
    Shell : types.String }.

Definition entity_url (c : ClientConfig) (id : types.Int64) : string :=
  BaseURL c +:+ "/scripts/snippets/" +:+ fmt_d (types.ValueInt64 id) +:+ "/".

Definition read_string (old : types.String) (v : option json) : types.String :=
  match as_string v with Some s => types.StringValue s | None => old end.

(** [// Update model with response data] of Read. *)
Definition refreshed (data : ScriptSnippetResourceModel) (result : gmap string json)
    : ScriptSnippetResourceModel :=
  {| Id := Id data;
     Name := read_string (Name data) (result !! "name");
     Desc := read_string (Desc data) (result !! "desc");
     Code := read_string (Code data) (result !! "code");
     Shell := read_string (Shell data) (result !! "shell") |}.

Definition Read `{GoLib} (c : ClientConfig) (data : ScriptSnippetResourceModel)
    : prog (Response ScriptSnippetResourceModel) :=
  match http.NewRequest "GET" (entity_url c (Id data)) None with
  | inl err =>
      fail [] (Some data) "Client Error"
        ("Unable to read script snippet, got error: " +:+ err)
  | inr httpReq =>
  Do c httpReq (fun r =>
  match r with
  | inl err =>
      fail [] (Some data) "Client Error"
        ("Unable to read script snippet, got error: " +:+ err)
  | inr httpResp =>
  if http.StatusCode httpResp =? http.StatusNotFound then
    (* resp.State.RemoveResource(ctx) *)
    Ret (mkResp [] None)
  else if negb (http.StatusCode httpResp =? http.StatusOK) then
    fail [] (Some data) "Client Error"
      ("Unable to read script snippet, status code: " +:+ fmt_d (http.StatusCode httpResp))
  else
  match decode_map (http.body httpResp) with
  | inl err =>
      fail [] (Some data) "Client Error" ("Unable to parse response, got error: " +:+ err)
  | inr result => Ret (mkResp [] (Some (refreshed data result)))
  end end) end.

(** The body of the PUT request of Update. *)
Definition update_body (data : ScriptSnippetResourceModel) : gmap string json :=
  let body : gmap string json :=
    <["name" := JString (types.ValueString (Name data))]>
    (<["code" := JString (types.ValueString (Code data))]> ∅) in
  let body :=
    if types.IsNull (Desc data) then body
    else <["desc" := JString (types.ValueString (Desc data))]> body in
  if types.IsNull (Shell data) then body
  else <["shell" := JString (types.ValueString (Shell data))]> body.

(** [// Update computed fields from the response] of Update. *)
Definition updated (data : ScriptSnippetResourceModel) (result : gmap string json)
    : ScriptSnippetResourceModel :=
  {| Id := Id data; Name := Name data; Desc := Desc data; Code := Code data;
     Shell :=
       match as_string (result !! "shell") with
       | Some shell => types.StringValue shell
       | None =>
           if types.IsNull (Shell data) || types.IsUnknown (Shell data)
           then types.StringValue "powershell" else Shell data
       end |}.

(** [data.Id = state.Id] *)
Definition with_id (data : ScriptSnippetResourceModel) (id : types.Int64)
    : ScriptSnippetResourceModel :=
  {| Id := id; Name := Name data; Desc := Desc data; Code := Code data;
     Shell := Shell data |}.

Definition Update `{GoLib} (c : ClientConfig) (plan state : ScriptSnippetResourceModel)
    : prog (Response ScriptSnippetResourceModel) :=
  let data := with_id plan (Id state) in
  match http.NewRequest "PUT" (entity_url c (Id data)) (Some (update_body data)) with
  | inl err =>
      fail [] (Some state) "Client Error"
        ("Unable to update script snippet, got error: " +:+ err)
  | inr httpReq =>
  Do c httpReq (fun r =>
  match r with
  | inl err =>
      fail [] (Some state) "Client Error"
        ("Unable to update script snippet, got error: " +:+ err)
  | inr httpResp =>
  if negb (http.StatusCode httpResp =? http.StatusOK) then
    fail [] (Some state) "Client Error"
      ("Unable to update script snippet, status code: "
         +:+ fmt_d (http.StatusCode httpResp))
  else
  match http.NewRequest "GET" (entity_url c (Id data)) None with
  | inl err =>
      fail [] (Some state) "Client Error"
        ("Unable to read updated script snippet, got error: " +:+ err)
  | inr getReq =>
  Do c getReq (fun r =>
  match r with
  | inl err =>
      fail [] (Some state) "Client Error"
        ("Unable to read updated script snippet, got error: " +:+ err)
  | inr getResp =>
  if negb (http.StatusCode getResp =? http.StatusOK) then
    fail [] (Some state) "Client Error"
      ("Unable to read updated script snippet, status code: "
         +:+ fmt_d (http.StatusCode getResp))
  else
  match decode_map (http.body getResp) with
  | inl err =>
      fail [] (Some state) "Client Error"
        ("Unable to parse response, got error: " +:+ err)
  | inr result => Ret (mkResp [] (Some (updated data result)))
  end end) end end) end.

Definition imported (id : Z) : ScriptSnippetResourceModel :=
  {| Id := types.Int64Value id; Name := types.Null; Desc := types.Null;
     Code := types.Null; Shell := types.Null |}.

Definition ImportState `{GoLib} (ID : string) : Response ScriptSnippetResourceModel :=
  match ParseInt ID with
  | inl err => mkResp (diag.AddError [] "Invalid ID" ("Unable to parse ID: " +:+ err)) None
  | inr id => mkResp [] (Some (imported id))
  end.

(** The body of the POST request of Create. *)
Definition create_body (data : ScriptSnippetResourceModel) : gmap string json :=
  let body : gmap string json :=
    <["name" := JString (types.ValueString (Name data))]>
    (<["code" := JString (types.ValueString (Code data))]> ∅) in
  let body :=
    if types.IsNull (Desc data) then body
    else <["desc" := JString (types.ValueString (Desc data))]> body in
  if types.IsNull (Shell data) then <["shell" := JString "powershell"]> body
  else <["shell" := JString (types.ValueString (Shell data))]> body.

(** [// Update model with response data] and [// Set defaults if not provided]
    of Create. *)
Definition created (data : ScriptSnippetResourceModel) (createdSnippet : gmap string json)
    : ScriptSnippetResourceModel :=
  {| Id :=
       match as_float64 (createdSnippet !! "id") with
       | Some id => types.Int64Value (int64 id)
       | None => Id data
       end;
     Name := Name data; Desc := Desc data; Code := Code data;
     Shell :=
       if types.IsNull (Shell data) then types.StringValue "powershell" else Shell data |}.

(** [Create]: [data] is the plan; the response state starts empty. *)
Definition Create `{GoLib} (c : ClientConfig) (data : ScriptSnippetResourceModel)
    : prog (Response ScriptSnippetResourceModel) :=
  match http.NewRequest "POST" (BaseURL c +:+ "/scripts/snippets/")
          (Some (create_body data)) with
  | inl err =>
      fail [] None "Client Error" ("Unable to create script snippet, got error: " +:+ err)
  | inr httpReq =>
  Do c httpReq (fun r =>
  match r with
  | inl err =>
      fail [] None "Client Error" ("Unable to create script snippet, got error: " +:+ err)
  | inr httpResp =>
  if negb (http.StatusCode httpResp =? http.StatusOK) then
    fail [] None "Client Error"
      ("Unable to create script snippet, status code: " +:+ fmt_d (http.StatusCode httpResp))
  else
  match http.NewRequest "GET" (BaseURL c +:+ "/scripts/snippets/") None with
  | inl err =>
      fail [] None "Client Error" ("Unable to list script snippets, got error: " +:+ err)
  | inr listReq =>
  Do c listReq (fun r =>
  match r with
  | inl err =>
      fail [] None "Client Error" ("Unable to list script snippets, got error: " +:+ err)
  | inr listResp =>
  match decode_maps (http.body listResp) with
  | inl err =>
      fail [] None "Client Error"
        ("Unable to parse script snippets list, got error: " +:+ err)
  | inr snippets =>
  match List.find (has_name (types.ValueString (Name data))) snippets with
  | None => fail [] None "Client Error" "Unable to find created script snippet"
  | Some createdSnippet => Ret (mkResp [] (Some (created data createdSnippet)))
  end end end) end end) end.

(** [Delete]: [data] is the prior state. *)
Definition Delete `{GoLib} (c : ClientConfig) (data : ScriptSnippetResourceModel)
    : prog diag.Diagnostics :=
  match http.NewRequest "DELETE" (entity_url c (Id data)) None with
  | inl err =>
      Ret (diag.AddError [] "Client Error"
             ("Unable to delete script snippet, got error: " +:+ err))
  | inr httpReq =>
  Do c httpReq (fun r =>
  match r with
  | inl err =>
      Ret (diag.AddError [] "Client Error"
             ("Unable to delete script snippet, got error: " +:+ err))
  | inr httpResp =>
  if negb (http.StatusCode httpResp =? http.StatusOK)
     && negb (http.StatusCode httpResp =? http.StatusNoContent) then
    Ret (diag.AddError [] "Client Error"
           ("Unable to delete script snippet, status code: "
              +:+ fmt_d (http.StatusCode httpResp)))
  else Ret []
  end) end.

End ScriptSnippetResource.

(** ** keystore_resource.go *)
Module KeyStoreResource.

Record KeyStoreResourceModel : Type := mkModel
  { Id : types.Int64;
    Name : types.String;
    Value : types.String }.

Definition read_string (old : types.String) (v : option json) : types.String :=
  match as_string v with Some s => types.StringValue s | None => old end.

(** [// Find our entry by ID]: the first entry with the stored id updates
    name and value; [None] when the loop ends with [found == false]. *)
Definition refreshed (data : KeyStoreResourceModel) (entries : list (gmap string json))
    : option KeyStoreResourceModel :=
  match List.find (has_id (types.ValueInt64 (Id data))) entries with
  | Some entry =>
      Some {| Id := Id data;
              Name := read_string (Name data) (entry !! "name");
              Value := read_string (Value data) (entry !! "value") |}
  | None => None
  end.

(** [Read]: the API has no endpoint for one entry, the whole collection is
    fetched. *)
Definition Read `{GoLib} (c : ClientConfig) (data : KeyStoreResourceModel)
    : prog (Response KeyStoreResourceModel) :=
  match http.NewRequest "GET" (BaseURL c +:+ "/core/keystore/") None with
  | inl err =>
      fail [] (Some data) "Client Error"
        ("Unable to read keystore entries, got error: " +:+ err)
  | inr httpReq =>
  Do c httpReq (fun r =>
  match r with
  | inl err =>
      fail [] (Some data) "Client Error"
        ("Unable to read keystore entries, got error: " +:+ err)
  | inr httpResp =>
  if negb (http.StatusCode httpResp =? http.StatusOK) then
    fail [] (Some data) "Client Error"
      ("Unable to read keystore entries, status code: "
         +:+ fmt_d (http.StatusCode httpResp))
  else
  match decode_maps (http.body httpResp) with
  | inl err =>
      fail [] (Some data) "Client Error" ("Unable to parse response, got error: " +:+ err)
  | inr entries =>
  match refreshed data entries with
  | None => (* resp.State.RemoveResource(ctx) *) Ret (mkResp [] None)
  | Some data => Ret (mkResp [] (Some data))
  end end end) end.

(** The body of the PUT request of Update. *)
Definition update_body (data : KeyStoreResourceModel) : gmap string json :=
  <["name" := JString (types.ValueString (Name data))]>
  (<["value" := JString (types.ValueString (Value data))]> ∅).

(** [data.Id = state.Id] *)
Definition with_id (data : KeyStoreResourceModel) (id : types.Int64)
    : KeyStoreResourceModel :=
  {| Id := id; Name := Name data; Value := Value data |}.

Definition Update `{GoLib} (c : ClientConfig) (plan state : KeyStoreResourceModel)
    : prog (Response KeyStoreResourceModel) :=
  let data := with_id plan (Id state) in
  let updateURL :=
    BaseURL c +:+ "/core/keystore/" +:+ fmt_d (types.ValueInt64 (Id data)) +:+ "/" in
  match http.NewRequest "PUT" updateURL (Some (update_body data)) with
  | inl err =>
      fail [] (Some state) "Client Error"
        ("Unable to update keystore entry, got error: " +:+ err)
  | inr httpReq =>
  Do c httpReq (fun r =>
  match r with
  | inl err =>
      fail [] (Some state) "Client Error"
        ("Unable to update keystore entry, got error: " +:+ err)
  | inr httpResp =>
  if negb (http.StatusCode httpResp =? http.StatusOK) then
    (* bodyBytes, _ := io.ReadAll(httpResp.Body) *)
    let bodyBytes := http.Text (http.body httpResp) in
    fail [] (Some state) "Client Error"
      ("Unable to update keystore entry ID " +:+ fmt_d (types.ValueInt64 (Id data))
         +:+ ", status code: " +:+ fmt_d (http.StatusCode httpResp)
         +:+ ", URL: " +:+ updateURL
         +:+ ", response: " +:+ bodyBytes)
  else Ret (mkResp [] (Some data))
  end) end.

Definition imported (id : Z) : KeyStoreResourceModel :=
  {| Id := types.Int64Value id; Name := types.Null; Value := types.Null |}.

Definition ImportState `{GoLib} (ID : string) : Response KeyStoreResourceModel :=
  match ParseInt ID with
  | inl err => mkResp (diag.AddError [] "Invalid ID" ("Unable to parse ID: " +:+ err)) None
  | inr id => mkResp [] (Some (imported id))
  end.

(** The body of the POST request of Create. *)
Definition create_body (data : KeyStoreResourceModel) : gmap string json :=
  <["name" := JString (types.ValueString (Name data))]>
  (<["value" := JString (types.ValueString (Value data))]> ∅).

(** [// Update model with response data] of Create. *)
Definition created (data : KeyStoreResourceModel) (createdEntry : gmap string json)
    : KeyStoreResourceModel :=
  {| Id :=
       match as_float64 (createdEntry !! "id") with
       | Some id => types.Int64Value (int64 id)
       | None => Id data
       end;
     Name := Name data; Value := Value data |}.

(** [Create]: [data] is the plan; the response state starts empty. *)
Definition Create `{GoLib} (c : ClientConfig) (data : KeyStoreResourceModel)
    : prog (Response KeyStoreResourceModel) :=
  match http.NewRequest "POST" (BaseURL c +:+ "/core/keystore/")
          (Some (create_body data)) with
  | inl err =>
      fail [] None "Client Error" ("Unable to create keystore entry, got error: " +:+ err)
  | inr httpReq =>
  Do c httpReq (fun r =>
  match r with
  | inl err =>
      fail [] None "Client Error" ("Unable to create keystore entry, got error: " +:+ err)
  | inr httpResp =>
  if negb (http.StatusCode httpResp =? http.StatusOK) then
    fail [] None "Client Error"
      ("Unable to create keystore entry, status code: " +:+ fmt_d (http.StatusCode httpResp))
  else
  match http.NewRequest "GET" (BaseURL c +:+ "/core/keystore/") None with
  | inl err =>
      fail [] None "Client Error" ("Unable to list keystore entries, got error: " +:+ err)
  | inr listReq =>
  Do c listReq (fun r =>
  match r with
  | inl err =>
      fail [] None "Client Error" ("Unable to list keystore entries, got error: " +:+ err)
  | inr listResp =>
  match decode_maps (http.body listResp) with
  | inl err =>
      fail [] None "Client Error"
        ("Unable to parse keystore entries list, got error: " +:+ err)
  | inr entries =>
  match List.find (has_name (types.ValueString (Name data))) entries with
  | None => fail [] None "Client Error" "Unable to find created keystore entry"
  | Some createdEntry => Ret (mkResp [] (Some (created data createdEntry)))
  end end end) end end) end.

(** [Delete]: [data] is the prior state. *)
Definition Delete `{GoLib} (c : ClientConfig) (data : KeyStoreResourceModel)
    : prog diag.Diagnostics :=
  match http.NewRequest "DELETE"
          (BaseURL c +:+ "/core/keystore/" +:+ fmt_d (types.ValueInt64 (Id data)) +:+ "/")
          None with
  | inl err =>
      Ret (diag.AddError [] "Client Error"
             ("Unable to delete keystore entry, got error: " +:+ err))
  | inr httpReq =>
  Do c httpReq (fun r =>
  match r with
  | inl err =>
      Ret (diag.AddError [] "Client Error"
             ("Unable to delete keystore entry, got error: " +:+ err))
  | inr httpResp =>
  if negb (http.StatusCode httpResp =? http.StatusOK)
     && negb (http.StatusCode httpResp =? http.StatusNoContent) then
    Ret (diag.AddError [] "Client Error"
           ("Unable to delete keystore entry, status code: "
              +:+ fmt_d (http.StatusCode httpResp)))
  else Ret []
  end) end.

End KeyStoreResource.

(** ** Projections shared by the data sources *)

(** [if s, ok := v.(string); ok { x = types.StringValue(s) }] on a field
    whose previous value is [old]. *)
Definition string_or (old : types.String) (v : option json) : types.String :=
  match as_string v with Some s => types.StringValue s | None => old end.

(** [if s, ok := v.(string); ok && s != empty { x = types.StringValue(s) } else { x = types.StringNull() }] *)
Definition nonempty_string_or_null (v : option json) : types.String :=
  match as_string v with
  | Some s => if nonempty s then types.StringValue s else types.StringNull
  | None => types.StringNull
  end.

Definition int64_or (old : types.Int64) (v : option json) : types.Int64 :=
  match as_float64 v with Some f => types.Int64Value (int64 f) | None => old end.

Definition bool_or (old : types.Bool) (v : option json) : types.Bool :=
  match as_bool v with Some b => types.BoolValue b | None => old end.

(** [if xs, ok := v.([]interface{}); ok && len(xs) > 0 { x = ListValueMust(...) } else { x = types.ListNull(types.StringType) }];
    [None] is a panic of [ListValueMust]. *)
Definition list_or_null (v : option json) : option types.List :=
  match as_slice v with
  | Some (x :: xs) => types.ListValueMust (attr_values (x :: xs))
  | _ => Some types.ListNull
  end.

(** ** script_data_source.go *)
Module ScriptDataSource.

Record ScriptDataSourceModel : Type := mkModel
  { Id : types.Int64;
    Name : types.String;
    Description : types.String;
    Shell : types.String;
    ScriptType : types.String;
    Category : types.String;
    Filename : types.String;
    ScriptBody : types.String;
    ScriptHash : types.String;
    DefaultTimeout : types.Int64;
    Favorite : types.Bool;
    Hidden : types.Bool;
    RunAsUser : types.Bool;
    Args : types.List;
    EnvVars : types.List;
    SupportedPlatforms : types.List;
    Syntax : types.String }.

(** [// Update model with response data] *)
Definition populated (data : ScriptDataSourceModel) (script : gmap string json)
    : option ScriptDataSourceModel :=
  args ← list_or_null (script !! "args");
  envVars ← list_or_null (script !! "env_vars");
  platforms ← list_or_null (script !! "supported_platforms");
  Some {| Id := int64_or (Id data) (script !! "id");
          Name := string_or (Name data) (script !! "name");
          Description := string_or types.StringNull (script !! "description");
          Shell := string_or (Shell data) (script !! "shell");
          ScriptType := string_or (ScriptType data) (script !! "script_type");
          Category := nonempty_string_or_null (script !! "category");
          Filename := nonempty_string_or_null (script !! "filename");
          ScriptBody := string_or (ScriptBody data) (script !! "script_body");
          ScriptHash := nonempty_string_or_null (script !! "script_hash");
          DefaultTimeout := int64_or (DefaultTimeout data) (script !! "default_timeout");
          Favorite := bool_or (Favorite data) (script !! "favorite");
          Hidden := bool_or (Hidden data) (script !! "hidden");
          RunAsUser := bool_or (RunAsUser data) (script !! "run_as_user");
          Args := args; EnvVars := envVars; SupportedPlatforms := platforms;
          Syntax := nonempty_string_or_null (script !! "syntax") |}.

(** [Read]: [data] is the configuration of the data source. *)
Definition Read `{GoLib} (c : ClientConfig) (data : ScriptDataSourceModel)
    : prog (Response ScriptDataSourceModel) :=
  let finish (script : gmap string json) : prog (Response ScriptDataSourceModel) :=
    match populated data script with
    | None => Panic
    | Some data => Ret (mkResp [] (Some data))
    end in
  if types.IsNull (Id data) && types.IsNull (Name data) then
    fail [] None "Missing Script Identifier"
      "Either 'id' or 'name' must be specified to look up a script."
  else if negb (types.IsNull (Id data)) then
    (* Look up by ID *)
    match http.NewRequest "GET"
            (BaseURL c +:+ "/scripts/" +:+ fmt_d (types.ValueInt64 (Id data)) +:+ "/")
            None with
    | inl err => fail [] None "Client Error" ("Unable to read script, got error: " +:+ err)
    | inr httpReq =>
    Do c httpReq (fun r =>
    match r with
    | inl err => fail [] None "Client Error" ("Unable to read script, got error: " +:+ err)
    | inr httpResp =>
    if http.StatusCode httpResp =? http.StatusNotFound then
      fail [] None "Script Not Found"
        ("Script with ID " +:+ fmt_d (types.ValueInt64 (Id data)) +:+ " not found")
    else if negb (http.StatusCode httpResp =? http.StatusOK) then
      fail [] None "Client Error"
        ("Unable to read script, status code: " +:+ fmt_d (http.StatusCode httpResp))
    else
    match decode_map (http.body httpResp) with
    | inl err =>
        fail [] None "Client Error" ("Unable to parse response, got error: " +:+ err)
    | inr script => finish script
    end end) end
  else
    (* Look up by name *)
    match http.NewRequest "GET" (BaseURL c +:+ "/scripts/") None with
    | inl err => fail [] None "Client Error" ("Unable to list scripts, got error: " +:+ err)
    | inr httpReq =>
    Do c httpReq (fun r =>
    match r with
    | inl err => fail [] None "Client Error" ("Unable to list scripts, got error: " +:+ err)
    | inr httpResp =>
    if negb (http.StatusCode httpResp =? http.StatusOK) then
      fail [] None "Client Error"
        ("Unable to list scripts, status code: " +:+ fmt_d (http.StatusCode httpResp))
    else
    match decode_maps (http.body httpResp) with
    | inl err =>
        fail [] None "Client Error" ("Unable to parse scripts list, got error: " +:+ err)
    | inr scripts =>
    match List.find (has_name (types.ValueString (Name data))) scripts with
    | None =>
        fail [] None "Script Not Found"
          ("Script with name '" +:+ types.ValueString (Name data) +:+ "' not found")
    | Some script => finish script
    end end end) end.

End ScriptDataSource.

(** ** script_snippet_data_source.go *)
Module ScriptSnippetDataSource.

Record ScriptSnippetDataSourceModel : Type := mkModel
  { Id : types.Int64;
    Name : types.String;
    Desc : types.String;
    Code : types.String;
    Shell : types.String }.

Definition populated (data : ScriptSnippetDataSourceModel) (snippet : gmap string json)
    : ScriptSnippetDataSourceModel :=
  {| Id := int64_or (Id data) (snippet !! "id");
     Name := string_or (Name data) (snippet !! "name");
     Desc := string_or types.StringNull (snippet !! "desc");
     Code := string_or (Code data) (snippet !! "code");
     Shell := string_or (Shell data) (snippet !! "shell") |}.

Definition Read `{GoLib} (c : ClientConfig) (data : ScriptSnippetDataSourceModel)
    : prog (Response ScriptSnippetDataSourceModel) :=
  if types.IsNull (Id data) && types.IsNull (Name data) then
    fail [] None "Missing Script Snippet Identifier"
      "Either 'id' or 'name' must be specified to look up a script snippet."
  else if negb (types.IsNull (Id data)) then
    match http.NewRequest "GET"
            (BaseURL c +:+ "/scripts/snippets/" +:+ fmt_d (types.ValueInt64 (Id data))
               +:+ "/") None with
    | inl err =>
        fail [] None "Client Error" ("Unable to read script snippet, got error: " +:+ err)
    | inr httpReq =>
    Do c httpReq (fun r =>
    match r with
    | inl err =>
        fail [] None "Client Error" ("Unable to read script snippet, got error: " +:+ err)
    | inr httpResp =>
    if http.StatusCode httpResp =? http.StatusNotFound then
      fail [] None "Script Snippet Not Found"
        ("Script snippet with ID " +:+ fmt_d (types.ValueInt64 (Id data)) +:+ " not found")
    else if negb (http.StatusCode httpResp =? http.StatusOK) then
      fail [] None "Client Error"
        ("Unable to read script snippet, status code: "
           +:+ fmt_d (http.StatusCode httpResp))
    else
    match decode_map (http.body httpResp) with
    | inl err =>
        fail [] None "Client Error" ("Unable to parse response, got error: " +:+ err)
    | inr snippet => Ret (mkResp [] (Some (populated data snippet)))
    end end) end
  else
    match http.NewRequest "GET" (BaseURL c +:+ "/scripts/snippets/") None with
    | inl err =>
        fail [] None "Client Error" ("Unable to list script snippets, got error: " +:+ err)
    | inr httpReq =>
    Do c httpReq (fun r =>
    match r with
    | inl err =>
        fail [] None "Client Error" ("Unable to list script snippets, got error: " +:+ err)
    | inr httpResp =>
    if negb (http.StatusCode httpResp =? http.StatusOK) then
      fail [] None "Client Error"
        ("Unable to list script snippets, status code: "
           +:+ fmt_d (http.StatusCode httpResp))
    else
    match decode_maps (http.body httpResp) with
    | inl err =>
        fail [] None "Client Error"
          ("Unable to parse script snippets list, got error: " +:+ err)
    | inr snippets =>
    match List.find (has_name (types.ValueString (Name data))) snippets with
    | None =>
        fail [] None "Script Snippet Not Found"
          ("Script snippet with name '" +:+ types.ValueString (Name data)
             +:+ "' not found")
    | Some snippet => Ret (mkResp [] (Some (populated data snippet)))
    end end end) end.

End ScriptSnippetDataSource.

(** ** keystore_data_source.go *)
Module KeyStoreDataSource.

Record KeyStoreDataSourceModel : Type := mkModel
  { Id : types.Int64;
    Name : types.String;
    Value : types.String }.

Definition populated (data : KeyStoreDataSourceModel) (foundEntry : gmap string json)
    : KeyStoreDataSourceModel :=
  {| Id := int64_or (Id data) (foundEntry !! "id");
     Name := string_or (Name data) (foundEntry !! "name");
     Value := string_or (Value data) (foundEntry !! "value") |}.

(** [// Find the entry by ID or name]: the entry, or the text of the
    not-found error. *)
Definition find_entry (data : KeyStoreDataSourceModel) (entries : list (gmap string json))
    : string + gmap string json :=
  if negb (types.IsNull (Id data)) then
    match List.find (has_id (types.ValueInt64 (Id data))) entries with
    | Some entry => inr entry
    | None =>
        inl ("KeyStore entry with ID " +:+ fmt_d (types.ValueInt64 (Id data))
               +:+ " not found")
    end
  else
    match List.find (has_name (types.ValueString (Name data))) entries with
    | Some entry => inr entry
    | None =>
        inl ("KeyStore entry with name '" +:+ types.ValueString (Name data)
               +:+ "' not found")
    end.

Definition Read `{GoLib} (c : ClientConfig) (data : KeyStoreDataSourceModel)
    : prog (Response KeyStoreDataSourceModel) :=
  if types.IsNull (Id data) && types.IsNull (Name data) then
    fail [] None "Missing KeyStore Identifier"
      "Either 'id' or 'name' must be specified to look up a keystore entry."
  else
  match http.NewRequest "GET" (BaseURL c +:+ "/core/keystore/") None with
  | inl err =>
      fail [] None "Client Error" ("Unable to read keystore entries, got error: " +:+ err)
  | inr httpReq =>
  Do c httpReq (fun r =>
  match r with
  | inl err =>
      fail [] None "Client Error" ("Unable to read keystore entries, got error: " +:+ err)
  | inr httpResp =>
  if negb (http.StatusCode httpResp =? http.StatusOK) then
    fail [] None "Client Error"
      ("Unable to read keystore entries, status code: "
         +:+ fmt_d (http.StatusCode httpResp))
  else
  match decode_maps (http.body httpResp) with
  | inl err =>
      fail [] None "Client Error" ("Unable to parse response, got error: " +:+ err)
  | inr entries =>
  match find_entry data entries with
  | inl detail => fail [] None "KeyStore Entry Not Found" detail
  | inr foundEntry => Ret (mkResp [] (Some (populated data foundEntry)))
  end end end) end.

End KeyStoreDataSource.

(** ** Filters shared by the plural data sources *)

(** [// Filter by ID]: the loop appends the first entry with the id and
    breaks. *)
Definition filter_by_id (targetId : Z) (entries : list (gmap string json))
    : list (gmap string json) :=
  match List.find (has_id targetId) entries with
  | Some entry => [entry]
  | None => []
  end.

(** [// Filter by name]: the loop appends every entry with the name. *)
Definition filter_by_name (targetName : string) (entries : list (gmap string json))
    : list (gmap string json) :=
  List.filter (has_name targetName) entries.

(** [if s, ok := script[key].(string); !ok || s != want] *)
Definition string_differs (v : option json) (want : string) : bool :=
  match as_string v with
  | Some s => negb (bool_decide (s = want))
  | None => true
  end.

(** [if b, ok := script[key].(bool); !ok || b != want] *)
Definition bool_differs (v : option json) (want : bool) : bool :=
  match as_bool v with
  | Some b => negb (bool_decide (b = want))
  | None => true
  end.

(** ** scripts_data_source.go *)
Module ScriptModel.

(** A single script in the list. *)
Record ScriptModel : Type := mk
  { Id : types.Int64;
    Name : types.String;
    Description : types.String;
    Shell : types.String;
    ScriptType : types.String;
    Category : types.String;
    Filename : types.String;
    DefaultTimeout : types.Int64;
    Favorite : types.Bool;
    Hidden : types.Bool;
    RunAsUser : types.Bool;
    Args : types.List;
    EnvVars : types.List;
    SupportedPlatforms : types.List;
    Syntax : types.String }.

(** One iteration of [// Convert to ScriptModel list], starting from
    [model := ScriptModel{}]. *)
Definition of_map (script : gmap string json) : option ScriptModel :=
  args ← list_or_null (script !! "args");
  envVars ← list_or_null (script !! "env_vars");
  platforms ← list_or_null (script !! "supported_platforms");
  Some {| Id := int64_or types.Null (script !! "id");
          Name := string_or types.Null (script !! "name");
          Description := string_or types.StringNull (script !! "description");
          Shell := string_or types.Null (script !! "shell");
          ScriptType := string_or types.Null (script !! "script_type");
          Category := nonempty_string_or_null (script !! "category");
          Filename := nonempty_string_or_null (script !! "filename");
          DefaultTimeout := int64_or types.Null (script !! "default_timeout");
          Favorite := bool_or types.Null (script !! "favorite");
          Hidden := bool_or types.Null (script !! "hidden");
          RunAsUser := bool_or types.Null (script !! "run_as_user");
          Args := args; EnvVars := envVars; SupportedPlatforms := platforms;
          Syntax := nonempty_string_or_null (script !! "syntax") |}.

End ScriptModel.

Module ScriptsDataSource.

Record ScriptsDataSourceModel : Type := mkModel
  { Id : types.Int64;
    Name : types.String;
    ScriptType : types.String;
    Shell : types.String;
    Category : types.String;
    Hidden : types.Bool;
    Scripts : types.Value (list ScriptModel.ScriptModel) }.

(** The body of the loop of [// Apply other filters]: the final value of
    [include]. *)
Definition include (data : ScriptsDataSourceModel) (script : gmap string json) : bool :=
  let include := true in
  let include :=
    if negb (types.IsNull (Name data))
       && string_differs (script !! "name") (types.ValueString (Name data))
    then false else include in
  let include :=
    if include && negb (types.IsNull (ScriptType data))
       && string_differs (script !! "script_type") (types.ValueString (ScriptType data))
    then false else include in
  let include :=
    if include && negb (types.IsNull (Shell data))
       && string_differs (script !! "shell") (types.ValueString (Shell data))
    then false else include in
  let include :=
    if include && negb (types.IsNull (Category data))
       && string_differs (script !! "category") (types.ValueString (Category data))
    then false else include in
  let include :=
    if include && negb (types.IsNull (Hidden data))
       && bool_differs (script !! "hidden") (types.ValueBool (Hidden data))
    then false else include in
  include.

(** [// Filter scripts based on criteria] *)
Definition filteredScripts (data : ScriptsDataSourceModel)
    (scripts : list (gmap string json)) : list (gmap string json) :=
  if negb (types.IsNull (Id data)) then
    filter_by_id (types.ValueInt64 (Id data)) scripts
  else List.filter (include data) scripts.

(** [data.Scripts = listValue] *)
Definition with_scripts (data : ScriptsDataSourceModel)
    (l : list ScriptModel.ScriptModel) : ScriptsDataSourceModel :=
  {| Id := Id data; Name := Name data; ScriptType := ScriptType data;
     Shell := Shell data; Category := Category data; Hidden := Hidden data;
     Scripts := types.Known l |}.

Definition Read `{GoLib} (c : ClientConfig) (data : ScriptsDataSourceModel)
    : prog (Response ScriptsDataSourceModel) :=
  match http.NewRequest "GET" (BaseURL c +:+ "/scripts/") None with
  | inl err => fail [] None "Client Error" ("Unable to list scripts, got error: " +:+ err)
  | inr httpReq =>
  Do c httpReq (fun r =>
  match r with
  | inl err => fail [] None "Client Error" ("Unable to list scripts, got error: " +:+ err)
  | inr httpResp =>
  if negb (http.StatusCode httpResp =? http.StatusOK) then
    fail [] None "Client Error"
      ("Unable to list scripts, status code: " +:+ fmt_d (http.StatusCode httpResp))
  else
  match decode_maps (http.body httpResp) with
  | inl err =>
      fail [] None "Client Error" ("Unable to parse scripts list, got error: " +:+ err)
  | inr scripts =>
  match mapM ScriptModel.of_map (filteredScripts data scripts) with
  | None => Panic
  | Some scriptsList => Ret (mkResp [] (Some (with_scripts data scriptsList)))
  end end end) end.

End ScriptsDataSource.

(** ** script_snippets_data_source.go *)
Module ScriptSnippetModel.

Record ScriptSnippetModel : Type := mk
  { Id : types.Int64;
    Name : types.String;
    Desc : types.String;
    Code : types.String;
    Shell : types.String }.

Definition of_map (snippet : gmap string json) : ScriptSnippetModel :=
  {| Id := int64_or types.Null (snippet !! "id");
     Name := string_or types.Null (snippet !! "name");
     Desc := string_or types.StringNull (snippet !! "desc");
     Code := string_or types.Null (snippet !! "code");
     Shell := string_or types.Null (snippet !! "shell") |}.

End ScriptSnippetModel.

Module ScriptSnippetsDataSource.

Record ScriptSnippetsDataSourceModel : Type := mkModel
  { Id : types.Int64;
    Name : types.String;
    Snippets : types.Value (list ScriptSnippetModel.ScriptSnippetModel) }.

(** [// Filter snippets based on criteria] *)
Definition filteredSnippets (data : ScriptSnippetsDataSourceModel)
    (snippets : list (gmap string json)) : list (gmap string json) :=
  if negb (types.IsNull (Id data)) then
    filter_by_id (types.ValueInt64 (Id data)) snippets
  else if negb (types.IsNull (Name data)) then
    filter_by_name (types.ValueString (Name data)) snippets
  else snippets.

Definition Read `{GoLib} (c : ClientConfig) (data : ScriptSnippetsDataSourceModel)
    : prog (Response ScriptSnippetsDataSourceModel) :=
  match http.NewRequest "GET" (BaseURL c +:+ "/scripts/snippets/") None with
  | inl err =>
      fail [] None "Client Error" ("Unable to list script snippets, got error: " +:+ err)
  | inr httpReq =>
  Do c httpReq (fun r =>
  match r with
  | inl err =>
      fail [] None "Client Error" ("Unable to list script snippets, got error: " +:+ err)
  | inr httpResp =>
  if negb (http.StatusCode httpResp =? http.StatusOK) then
    fail [] None "Client Error"
      ("Unable to list script snippets, status code: "
         +:+ fmt_d (http.StatusCode httpResp))
  else
  match decode_maps (http.body httpResp) with
  | inl err =>
      fail [] None "Client Error"
        ("Unable to parse script snippets list, got error: " +:+ err)
  | inr snippets =>
      Ret (mkResp []
             (Some {| Id := Id data; Name := Name data;
                      Snippets :=
                        types.Known (ScriptSnippetModel.of_map
                                       <$> filteredSnippets data snippets) |}))
  end end) end.

End ScriptSnippetsDataSource.

(** ** keystores_data_source.go *)
Module KeyStoreModel.

Record KeyStoreModel : Type := mk
  { Id : types.Int64;
    Name : types.String;
    Value : types.String }.

Definition of_map (entry : gmap string json) : KeyStoreModel :=
  {| Id := int64_or types.Null (entry !! "id");
     Name := string_or types.Null (entry !! "name");
     Value := string_or types.Null (entry !! "value") |}.

End KeyStoreModel.

Module KeyStoresDataSource.

Record KeyStoresDataSourceModel : Type := mkModel
  { Id : types.Int64;
    Name : types.String;
    Keystores : types.Value (list KeyStoreModel.KeyStoreModel) }.

(** [// Filter entries based on criteria] *)
Definition filteredEntries (data : KeyStoresDataSourceModel)
    (entries : list (gmap string json)) : list (gmap string json) :=
  if negb (types.IsNull (Id data)) then
    filter_by_id (types.ValueInt64 (Id data)) entries
  else if negb (types.IsNull (Name data)) then
    filter_by_name (types.ValueString (Name data)) entries
  else entries.

Definition Read `{GoLib} (c : ClientConfig) (data : KeyStoresDataSourceModel)
    : prog (Response KeyStoresDataSourceModel) :=
  match http.NewRequest "GET" (BaseURL c +:+ "/core/keystore/") None with
  | inl err =>
      fail [] None "Client Error" ("Unable to read keystore entries, got error: " +:+ err)
  | inr httpReq =>
  Do c httpReq (fun r =>
  match r with
  | inl err =>
      fail [] None "Client Error" ("Unable to read keystore entries, got error: " +:+ err)
  | inr httpResp =>
  if negb (http.StatusCode httpResp =? http.StatusOK) then
    fail [] None "Client Error"
      ("Unable to read keystore entries, status code: "
         +:+ fmt_d (http.StatusCode httpResp))
  else
  match decode_maps (http.body httpResp) with
  | inl err =>
      fail [] None "Client Error" ("Unable to parse response, got error: " +:+ err)
  | inr entries =>
      Ret (mkResp []
             (Some {| Id := Id data; Name := Name data;
                      Keystores :=
                        types.Known (KeyStoreModel.of_map
                                       <$> filteredEntries data entries) |}))
  end end) end.

End KeyStoresDataSource.

(** ** Concrete scenarios

    A server that answers the requests it receives with a fixed list of
    replies, in order, and the library parameters used with it. *)
Module Scenario.

Definition golib : GoLib :=
  {| url_error := fun _ => None;
     json_type_error := fun _ t => "json: cannot unmarshal value into Go value of type " +:+ t;
     strconv_error := fun s reason => "strconv.ParseInt: parsing " +:+ s +:+ ": " +:+ reason;
     elements_as_error :=
     diag.mk diag.SeverityError "Value Conversion Error"
       "An unexpected error was encountered trying to convert the value." |}.

Definition replies : Type := list (error + http.Response).

Definition replay (c : ClientConfig) (req : http.Request) (w : replies)
    : (error + http.Response) * replies :=
  match w with
  | r :: w' => (r, w')
  | [] => (inl "connection refused", [])
  end.

Definition client : ClientConfig :=
  {| BaseURL := "https://rmm.example.com"; APIKey := "secret" |}.

(** JSON documents as they are written down: objects as lists of members. *)
#[warnings="-register-all"]
Inductive doc : Type :=
| DNull
| DBool (b : bool)
| DInt (n : Z)
| DString (s : string)
| DArray (l : list doc)
| DObject (members : list (string * doc)).

(** The value that the decoder yields for a document. *)
Fixpoint decoded (d : doc) : json :=
  match d with
  | DNull => JNull
  | DBool b => JBool b
  | DInt n => JInt n
  | DString s => JString s
  | DArray l => JArray (List.map decoded l)
  | DObject members =>
      JObject ((fix go (ms : list (string * doc)) : gmap string json :=
                  match ms with
                  | [] => ∅
                  | (k, v) :: ms' => <[k := decoded v]> (go ms')
                  end) members)
  end.

Definition quote : string := String (ascii_of_nat 34) EmptyString.

(** The text of a document (its strings need no escapes here). *)
Fixpoint text (d : doc) : string :=
  match d with
  | DNull => "null"
  | DBool b => if b then "true" else "false"
  | DInt n => fmt_d n
  | DString s => quote +:+ s +:+ quote
  | DArray l =>
      "[" +:+ String.concat "," (List.map text l) +:+ "]"
  | DObject members =>
      "{" +:+ String.concat ","
                ((fix go (ms : list (string * doc)) : list string :=
                    match ms with
                    | [] => []
                    | (k, v) :: ms' => (quote +:+ k +:+ quote +:+ ":" +:+ text v) :: go ms'
                    end) members)
          +:+ "}"
  end.

(** A JSON response with the given status. *)
Definition reply (status : Z) (d : doc) : error + http.Response :=
  inr (http.mkResponse status (http.mkBody (text d) (inr (decoded d)))).

(** A response whose body is plain text, not JSON. *)
Definition plain_reply (status : Z) (body decode_error : string)
    : error + http.Response :=
  inr (http.mkResponse status (http.mkBody body (inl decode_error))).

(** The server rejects an update: status 400 and an explanation. *)
Definition rejection_text : string :=
  "name: ensure this field has no more than 25 characters.".

Definition rejection : error + http.Response :=
  plain_reply 400 rejection_text "invalid character in JSON value".

Definition script_plan : ScriptResource.ScriptResourceModel :=
  {| ScriptResource.Id := types.Unknown;
     ScriptResource.Name := types.Known "a name that is longer than the server accepts";
     ScriptResource.Description := types.Null;
     ScriptResource.Shell := types.Known "powershell";
     ScriptResource.ScriptType := types.Unknown;
     ScriptResource.Category := types.Null;
     ScriptResource.ScriptBody := types.Known "Write-Output 1";
     ScriptResource.DefaultTimeout := types.Unknown;
     ScriptResource.Favorite := types.Unknown;
     ScriptResource.Hidden := types.Unknown;
     ScriptResource.RunAsUser := types.Unknown;
     ScriptResource.Args := types.Null;
     ScriptResource.EnvVars := types.Null;
     ScriptResource.SupportedPlatforms := types.Null;
     ScriptResource.Syntax := types.Null |}.

Definition script_state : ScriptResource.ScriptResourceModel :=
  {| ScriptResource.Id := types.Known 7;
     ScriptResource.Name := types.Known "X";
     ScriptResource.Description := types.Null;
     ScriptResource.Shell := types.Known "powershell";
     ScriptResource.ScriptType := types.Known "userdefined";
     ScriptResource.Category := types.Null;
     ScriptResource.ScriptBody := types.Known "Write-Output 1";
     ScriptResource.DefaultTimeout := types.Known 90;
     ScriptResource.Favorite := types.Known false;
     ScriptResource.Hidden := types.Known false;
     ScriptResource.RunAsUser := types.Known false;
     ScriptResource.Args := types.Null;
     ScriptResource.EnvVars := types.Null;
     ScriptResource.SupportedPlatforms := types.Null;
     ScriptResource.Syntax := types.Null |}.

Definition snippet_plan : ScriptSnippetResource.ScriptSnippetResourceModel :=
  {| ScriptSnippetResource.Id := types.Unknown;
     ScriptSnippetResource.Name :=
       types.Known "a name that is longer than the server accepts";
     ScriptSnippetResource.Desc := types.Null;
     ScriptSnippetResource.Code := types.Known "Write-Output 1";
     ScriptSnippetResource.Shell := types.Known "powershell" |}.

Definition snippet_state : ScriptSnippetResource.ScriptSnippetResourceModel :=
  {| ScriptSnippetResource.Id := types.Known 3;
     ScriptSnippetResource.Name := types.Known "S";
     ScriptSnippetResource.Desc := types.Null;
     ScriptSnippetResource.Code := types.Known "Write-Output 1";
     ScriptSnippetResource.Shell := types.Known "powershell" |}.

Definition keystore_plan : KeyStoreResource.KeyStoreResourceModel :=
  {| KeyStoreResource.Id := types.Unknown;
     KeyStoreResource.Name :=
       types.Known "a name that is longer than the server accepts";
     KeyStoreResource.Value := types.Known "v" |}.

Definition keystore_state : KeyStoreResource.KeyStoreResourceModel :=
  {| KeyStoreResource.Id := types.Known 5;
     KeyStoreResource.Name := types.Known "k";
     KeyStoreResource.Value := types.Known "v" |}.

(** The three Updates against a server that rejects the PUT. *)
Definition rejected_script_update : option (Response ScriptResource.ScriptResourceModel) :=
  result replay (ScriptResource.Update (H := golib) client script_plan script_state)
    [rejection].

Definition rejected_snippet_update
    : option (Response ScriptSnippetResource.ScriptSnippetResourceModel) :=
  result replay
    (ScriptSnippetResource.Update (H := golib) client snippet_plan snippet_state)
    [rejection].

Definition rejected_keystore_update
    : option (Response KeyStoreResource.KeyStoreResourceModel) :=
  result replay
    (KeyStoreResource.Update (H := golib) client keystore_plan keystore_state)
    [rejection].

(** An environment that carries the API key, and a configuration that
    sets neither attribute. *)
Definition env_with_key : trmmProvider.environ :=
  {[ "TRMM_API_KEY" := "secret"; "TRMM_ENDPOINT" := "https://rmm.example.com" ]}.

Definition empty_config : trmmProvider.trmmProviderModel :=
  {| trmmProvider.Endpoint := types.Null; trmmProvider.APIKey := types.Null |}.























(** The script as the server reports it, with the given list attributes. *)
Definition stored_script (arguments env : list doc) : doc :=
  DObject [("id", DInt 7); ("name", DString "X"); ("shell", DString "powershell");
           ("script_type", DString "userdefined");
           ("script_body", DString "Write-Output 1"); ("default_timeout", DInt 90);
           ("favorite", DBool false); ("hidden", DBool false);
           ("run_as_user", DBool false); ("args", DArray arguments);
           ("env_vars", DArray env); ("supported_platforms", DArray [])].


(** The state that Create writes. *)
Definition tri_created : ScriptResource.ScriptResourceModel :=
  {| ScriptResource.Id := types.Known 7;
     ScriptResource.Name := types.Known "X";
     ScriptResource.Description := types.Null;
     ScriptResource.Shell := types.Known "powershell";
     ScriptResource.ScriptType := types.Known "userdefined";
     ScriptResource.Category := types.Null;
     ScriptResource.ScriptBody := types.Known "Write-Output 1";
     ScriptResource.DefaultTimeout := types.Known 90;
     ScriptResource.Favorite := types.Known false;
     ScriptResource.Hidden := types.Known false;
     ScriptResource.RunAsUser := types.Known false;
     ScriptResource.Args := types.Null;
     ScriptResource.EnvVars := types.Known [];
     ScriptResource.SupportedPlatforms := types.Null;
     ScriptResource.Syntax := types.Null |}.


(** A later Read finds that the script was given an argument and an
    environment variable on the server. *)
Definition edited_reply : error + http.Response :=
  reply 200 (stored_script [DString "-Verbose"] [DString "A=1"]).

Definition tri_edited : ScriptResource.ScriptResourceModel :=
  {| ScriptResource.Id := types.Known 7;
     ScriptResource.Name := types.Known "X";
     ScriptResource.Description := types.Null;
     ScriptResource.Shell := types.Known "powershell";
     ScriptResource.ScriptType := types.Known "userdefined";
     ScriptResource.Category := types.Null;
     ScriptResource.ScriptBody := types.Known "Write-Output 1";
     ScriptResource.DefaultTimeout := types.Known 90;
     ScriptResource.Favorite := types.Known false;
     ScriptResource.Hidden := types.Known false;
     ScriptResource.RunAsUser := types.Known false;
     ScriptResource.Args := types.Known [types.Known "-Verbose"];
     ScriptResource.EnvVars := types.Known [types.Known "A=1"];
     ScriptResource.SupportedPlatforms := types.Null;
     ScriptResource.Syntax := types.Null |}.



End Scenario.

(** ** Vocabulary of the statements *)

Section Vocabulary.
Context `{GoLib}.

(** What an Update sends: first the PUT, whose body has none of the
    [absent] keys, then requests without a body. *)
Definition sends_put_without (absent : list string) (url : string)
    (reqs : list http.Request) : Prop :=
  match reqs with
  | [] => url_error url ≠ None
  | put :: rest =>
      http.Method put = "PUT" ∧ http.URL put = url
      ∧ (∃ body, http.ReqBody put = Some body
                 ∧ Forall (λ k : string, body !! k = None) absent)
      ∧ Forall (λ req, http.Method req = "GET" ∧ http.ReqBody req = None) rest
  end.

(** What an Update answers: a response whose state holds the identifier
    [id]. *)
Definition keeps_id {M} (Id : M → types.Int64) (id : types.Int64)
    (r : option (Response M)) : Prop :=
  ∃ resp st, r = Some resp ∧ State resp = Some st ∧ Id st = id.

(** [sub] occurs in [s]. *)
Definition includes (sub s : string) : Prop :=
  ∃ pre post, s = pre +:+ sub +:+ post.

(** The decision of [includes]: [sub] is a prefix of some suffix of [s]. *)
Fixpoint contains (sub s : string) : bool :=
  String.prefix sub s
  || match s with
     | EmptyString => false
     | String _ s' => contains sub s'
     end.

(** The details of the error diagnostics. *)
Definition error_details (ds : diag.Diagnostics) : list string :=
  diag.Detail <$> List.filter diag.is_error ds.

(** [x] is the first element of [l] that passes [f]. *)
Definition first_with {A} (f : A → bool) (x : A) (l : list A) : Prop :=
  ∃ pre post, l = pre ++ x :: post ∧ f x = true ∧ Forall (λ y, f y = false) pre.


(** A string filter of a plural query is satisfied by a field: the filter
    is not set, or the field is a string equal to it. *)
Definition string_filter_ok (filter : types.String) (v : option json) : Prop :=
  types.IsNull filter = false → as_string v = Some (types.ValueString filter).







(** An identifier given to [terraform import] is numeric: an optional sign
    and then decimal digits, at least one. *)
Definition all_digits (s : string) : bool :=
  forallb is_digit (list_ascii_of_string s).

Definition numeric (s : string) : bool :=
  match s with
  | EmptyString => false
  | String c rest =>
      if bool_decide (c = "+"%char) || bool_decide (c = "-"%char)
      then nonempty rest && all_digits rest
      else all_digits s
  end.

(** The three list attributes of a script. *)
Inductive list_field : Type := args | env_vars | supported_platforms.

Definition field_key (f : list_field) : string :=
  match f with
  | args => "args"
  | env_vars => "env_vars"
  | supported_platforms => "supported_platforms"
  end.

Definition field_of (f : list_field) (m : ScriptResource.ScriptResourceModel)
    : types.List :=
  match f with
  | args => ScriptResource.Args m
  | env_vars => ScriptResource.EnvVars m
  | supported_platforms => ScriptResource.SupportedPlatforms m
  end.





End Vocabulary.

(** A sequence of Reads of a script, each starting from the state and the
    server that the one before left; every Read leaves a state, and every
    exchange with the server satisfies [ok]. *)
Section Refreshes.
Context `{GoLib} {server : Type}.
Variable serve : ClientConfig → http.Request → server → (error + http.Response) * server.
Variable c : ClientConfig.
Variable ok : exchange → Prop.


End Refreshes.

(** ** The filters of the plural scripts data source as the specification
    lists them

    This second definition follows the words of the specification (category,
    shell, script_type, hidden, favorite, platform-contains); it is compared
    with [ScriptsDataSource.filteredScripts] below. *)
Module ListedFilters.

Record filters : Type := mk
  { category : option string;
    shell : option string;
    script_type : option string;
    hidden : option bool;
    favorite : option bool;
    supported_platform : option string }.

Definition string_is (want : option string) (v : option json) : bool :=
  match want with
  | None => true
  | Some s => bool_decide (as_string v = Some s)
  end.

Definition bool_is (want : option bool) (v : option json) : bool :=
  match want with
  | None => true
  | Some b => bool_decide (as_bool v = Some b)
  end.

Definition is_string (s : string) (j : json) : bool :=
  match j with JString x => bool_decide (x = s) | _ => false end.

Definition list_contains (want : option string) (v : option json) : bool :=
  match want with
  | None => true
  | Some s =>
      match as_slice v with
      | Some l => existsb (is_string s) l
      | None => false
      end
  end.

(** A record satisfies every listed filter that is set. *)
Definition satisfies (q : filters) (script : gmap string json) : bool :=
  string_is (category q) (script !! "category")
  && string_is (shell q) (script !! "shell")
  && string_is (script_type q) (script !! "script_type")
  && bool_is (hidden q) (script !! "hidden")
  && bool_is (favorite q) (script !! "favorite")
  && list_contains (supported_platform q) (script !! "supported_platforms").

(** The records that appear in the output, by the specification. *)
Definition selected (q : filters) (scripts : list (gmap string json))
    : list (gmap string json) :=
  List.filter (satisfies q) scripts.




End ListedFilters.

(** ** Vocabulary of the further properties *)

(** The decimal value of a string of digits, continuing from [n]; no bound
    is checked. *)
Fixpoint digits_acc (n : Z) (s : string) : Z :=
  match s with
  | EmptyString => n
  | String c s' => digits_acc (n * 10 + (Z.of_nat (nat_of_ascii c) - 48)) s'
  end.

(** The integer that a numeric identifier denotes. *)
Definition int_value (s : string) : Z :=
  match s with
  | EmptyString => 0
  | String c rest =>
      if bool_decide (c = "+"%char) then digits_acc 0 rest
      else if bool_decide (c = "-"%char) then - digits_acc 0 rest
      else digits_acc 0 s
  end.

(** The integer fits an [int64]. *)
Definition in_int64 (n : Z) : bool := (- 2 ^ 63 <=? n) && (n <? 2 ^ 63).

(** Nothing was sent, or one GET without a body. *)
Definition at_most_one_get (reqs : list http.Request) : Prop :=
  reqs = [] ∨ ∃ url, reqs = [http.mkRequest "GET" url None].

(** An element of a decoded array that is not a string. *)
Definition non_string (x : json) : bool :=
  match x with JString _ => false | _ => true end.

(** [req.Header]: the values of each key.  [canonical] is
    [textproto.CanonicalMIMEHeaderKey], which [Set] and [Get] apply to the
    key. *)
Section Headers.
Variable canonical : string → string.

(** [h.Set(key, value)] replaces the values of the key by the one value. *)
Definition Header_Set (h : gmap string (list string)) (key value : string)
    : gmap string (list string) :=
  <[canonical key := [value]]> h.

(** [h.Get(key)]: the first value of the key, or the empty string. *)
Definition Header_Get (h : gmap string (list string)) (key : string) : string :=
  match h !! canonical key with
  | Some (v :: _) => v
  | _ => EmptyString
  end.

(** The headers of the request after the two [Set] calls of
    [ClientConfig.Do], before the request goes to the HTTP client. *)
Definition ClientConfig_Do_Header (c : ClientConfig) (h : gmap string (list string))
    : gmap string (list string) :=
  Header_Set (Header_Set h "X-API-KEY" (APIKey c)) "Content-Type" "application/json".

End Headers.

(** What a Delete answers to the status of the response: no diagnostic for
    200 and 204, else one error that gives the status. *)
Definition delete_outcome (what : string) (status : Z) (r : option diag.Diagnostics)
    : Prop :=
  ∃ ds, r = Some ds
        ∧ (diag.HasError ds = false ↔ status = 200 ∨ status = 204)
        ∧ (ds = []
           ∨ ds = [diag.mk diag.SeverityError "Client Error"
                     ("Unable to delete " +:+ what +:+ ", status code: " +:+ fmt_d status)]).

(** The diagnostics end with the error that a handler adds for a failed
    call: its detail ends with the text of the error of the call. *)
Definition reports (err : error) (ds : diag.Diagnostics) : Prop :=
  ∃ ds0 what, ds = ds0 ++ [diag.mk diag.SeverityError "Client Error" (what +:+ err)].

(** At every call of the handler, an error of the call makes the handler
    return at once, with the error reported and the state [initial]. *)
Fixpoint stops_at_failed_call {M} (initial : option M) (p : prog (Response M)) : Prop :=
  match p with
  | Do c req k =>
      (∀ err, ∃ ds, k (inl err) = Ret (mkResp ds initial) ∧ reports err ds)
      ∧ ∀ resp, stops_at_failed_call initial (k (inr resp))
  | _ => True
  end.

(** The same, seen from outside: in a run, a call that failed is the last
    exchange, and the handler answers with the error reported and the state
    [initial]. *)
Definition failed_call_ends {M S} (initial : option M)
    (r : option (Response M) * S * list exchange) : Prop :=
  ∀ log req err rest,
    r.2 = log ++ (req, inl err) :: rest →
    rest = [] ∧ ∃ ds, r.1.1 = Some (mkResp ds initial) ∧ reports err ds.

(** The attributes of a script that only the provider computes hold known
    values. *)
Definition is_known {A} (v : types.Value A) : bool :=
  match v with types.Known _ => true | _ => false end.

Definition computed_known (st : ScriptResource.ScriptResourceModel) : Prop :=
  is_known (ScriptResource.ScriptType st) = true
  ∧ is_known (ScriptResource.DefaultTimeout st) = true
  ∧ is_known (ScriptResource.Favorite st) = true
  ∧ is_known (ScriptResource.Hidden st) = true
  ∧ is_known (ScriptResource.RunAsUser st) = true.

(** Every answer that the handler can give satisfies [P], whatever the
    server does. *)
Fixpoint leaves {A} (P : A → Prop) (p : prog A) : Prop :=
  match p with
  | Ret a => P a
  | Panic => True
  | Do c req k => ∀ r, leaves P (k r)
  end.

(** ** Further concrete cases *)
Module Cases.

(** The server reports a script whose args hold a number. *)
Definition script_with_numeric_arg : Scenario.doc :=
  Scenario.DObject
    [("id", Scenario.DInt 7); ("name", Scenario.DString "X");
     ("args", Scenario.DArray [Scenario.DString "-Verbose"; Scenario.DInt 3])].

Definition numeric_arg_reply : http.Response :=
  http.mkResponse 200
    (http.mkBody (Scenario.text script_with_numeric_arg)
       (inr (Scenario.decoded script_with_numeric_arg))).

Definition numeric_arg_map : gmap string json :=
  {[ "id" := JInt 7; "name" := JString "X";
     "args" := JArray [JString "-Verbose"; JInt 3] ]}.

(** The server deleted the entity: status 204 and an empty body. *)
Definition no_content : http.Response :=
  http.mkResponse 204 (http.mkBody EmptyString (inl "EOF")).

(** A keystore entry is created: the server accepts the POST, and answers
    the list request with status 500 and yet a list in the body. *)
Definition key_plan : KeyStoreResource.KeyStoreResourceModel :=
  {| KeyStoreResource.Id := types.Unknown;
     KeyStoreResource.Name := types.Known "k";
     KeyStoreResource.Value := types.Known "v" |}.

Definition accepted : http.Response :=
  http.mkResponse 200
    (http.mkBody (Scenario.text (Scenario.DString "ok"))
       (inr (Scenario.decoded (Scenario.DString "ok")))).

Definition two_keys : Scenario.doc :=
  Scenario.DArray
    [Scenario.DObject [("id", Scenario.DInt 4); ("name", Scenario.DString "j");
                       ("value", Scenario.DString "u")];
     Scenario.DObject [("id", Scenario.DInt 5); ("name", Scenario.DString "k");
                       ("value", Scenario.DString "v")]].

Definition listing_with_status_500 : http.Response :=
  http.mkResponse 500
    (http.mkBody (Scenario.text two_keys) (inr (Scenario.decoded two_keys))).

Definition key_j : gmap string json :=
  {[ "id" := JInt 4; "name" := JString "j"; "value" := JString "u" ]}.

Definition key_k : gmap string json :=
  {[ "id" := JInt 5; "name" := JString "k"; "value" := JString "v" ]}.

Definition key_created : KeyStoreResource.KeyStoreResourceModel :=
  {| KeyStoreResource.Id := types.Known 5;
     KeyStoreResource.Name := types.Known "k";
     KeyStoreResource.Value := types.Known "v" |}.

(** The server rejects the POST. *)
Definition rejected_post : http.Response :=
  http.mkResponse 400
    (http.mkBody Scenario.rejection_text (inl "invalid character in JSON value")).

(** A script is planned with one argument and two platforms; the server
    stores it under id 7 and reports the lists as they were sent. *)
Definition listed_plan : ScriptResource.ScriptResourceModel :=
  {| ScriptResource.Id := types.Unknown;
     ScriptResource.Name := types.Known "X";
     ScriptResource.Description := types.Null;
     ScriptResource.Shell := types.Known "powershell";
     ScriptResource.ScriptType := types.Unknown;
     ScriptResource.Category := types.Null;
     ScriptResource.ScriptBody := types.Known "Write-Output 1";
     ScriptResource.DefaultTimeout := types.Unknown;
     ScriptResource.Favorite := types.Unknown;
     ScriptResource.Hidden := types.Unknown;
     ScriptResource.RunAsUser := types.Unknown;
     ScriptResource.Args := types.Known [types.Known "-Verbose"];
     ScriptResource.EnvVars := types.Null;
     ScriptResource.SupportedPlatforms :=
       types.Known [types.Known "windows"; types.Known "linux"];
     ScriptResource.Syntax := types.Null |}.

Definition listed_record : gmap string json :=
  {[ "id" := JInt 7; "name" := JString "X"; "shell" := JString "powershell";
     "script_type" := JString "userdefined"; "default_timeout" := JInt 90;
     "args" := JArray [JString "-Verbose"];
     "env_vars" := JArray [];
     "supported_platforms" := JArray [JString "windows"; JString "linux"] ]}.

Definition listed_created : ScriptResource.ScriptResourceModel :=
  {| ScriptResource.Id := types.Known 7;
     ScriptResource.Name := types.Known "X";
     ScriptResource.Description := types.Null;
     ScriptResource.Shell := types.Known "powershell";
     ScriptResource.ScriptType := types.Known "userdefined";
     ScriptResource.Category := types.Null;
     ScriptResource.ScriptBody := types.Known "Write-Output 1";
     ScriptResource.DefaultTimeout := types.Known 90;
     ScriptResource.Favorite := types.Known false;
     ScriptResource.Hidden := types.Known false;
     ScriptResource.RunAsUser := types.Known false;
     ScriptResource.Args := types.Known [types.Known "-Verbose"];
     ScriptResource.EnvVars := types.Null;
     ScriptResource.SupportedPlatforms :=
       types.Known [types.Known "windows"; types.Known "linux"];
     ScriptResource.Syntax := types.Null |}.

(** The keystore is listed with status 200; the query asks for the name k. *)
Definition key_listing : http.Response :=
  http.mkResponse 200
    (http.mkBody (Scenario.text two_keys) (inr (Scenario.decoded two_keys))).

Definition key_query : KeyStoreDataSource.KeyStoreDataSourceModel :=
  {| KeyStoreDataSource.Id := types.Null;
     KeyStoreDataSource.Name := types.Known "k";
     KeyStoreDataSource.Value := types.Unknown |}.

Definition key_found : KeyStoreDataSource.KeyStoreDataSourceModel :=
  {| KeyStoreDataSource.Id := types.Known 5;
     KeyStoreDataSource.Name := types.Known "k";
     KeyStoreDataSource.Value := types.Known "v" |}.

Definition keys_query : KeyStoresDataSource.KeyStoresDataSourceModel :=
  {| KeyStoresDataSource.Id := types.Null;
     KeyStoresDataSource.Name := types.Known "k";
     KeyStoresDataSource.Keystores := types.Unknown |}.

(** The canonical form of a header key made of letters and hyphens: the
    first letter and each letter after a hyphen in upper case, the others in
    lower case. *)
Definition upper (c : ascii) : ascii :=
  let n := nat_of_ascii c in
  if (97 <=? n)%nat && (n <=? 122)%nat then ascii_of_nat (n - 32) else c.

Definition lower (c : ascii) : ascii :=
  let n := nat_of_ascii c in
  if (65 <=? n)%nat && (n <=? 90)%nat then ascii_of_nat (n + 32) else c.

Fixpoint canonical_from (start : bool) (s : string) : string :=
  match s with
  | EmptyString => EmptyString
  | String c s' =>
      String (if start then upper c else lower c)
        (canonical_from (Ascii.eqb c "-") s')
  end.

Definition canonical : string → string := canonical_from true.

(** A request that already carries an API key, a content type in another
    spelling, and an Accept header. *)
Definition prior_header : gmap string (list string) :=
  {[ "X-Api-Key" := ["stale"; "older"]; "Content-Type" := ["text/plain"];
     "Accept" := ["*/*"] ]}.

End Cases.

(** * Properties *)

(** ** Provider configuration *)

Lemma nonempty_false (s : string) : nonempty s = false ↔ s = EmptyString.
Proof. destruct s; simpl; split; congruence. Qed.

(** An API key that resolves to nothing is a fatal error and yields no
    client. *)
Lemma Configure_missing_key env config :
  types.ValueString (trmmProvider.APIKey config) = EmptyString →
  let r := trmmProvider.Configure env config in
  diag.HasError (trmmProvider.Diagnostics r) = true
  ∧ trmmProvider.ResourceData r = None
  ∧ trmmProvider.DataSourceData r = None.
Proof.
  intros Hkey. unfold trmmProvider.Configure. rewrite Hkey. simpl. done.
Qed.

(** An endpoint that resolves to nothing defaults to the public URL. *)
Lemma Configure_default_endpoint env config :
  types.ValueString (trmmProvider.Endpoint config) = EmptyString →
  nonempty (types.ValueString (trmmProvider.APIKey config)) = true →
  trmmProvider.ResourceData (trmmProvider.Configure env config)
  = Some {| BaseURL := "https://api.tactical-rmm.com";
            APIKey := types.ValueString (trmmProvider.APIKey config) |}.
Proof.
  intros He Hk. unfold trmmProvider.Configure. rewrite He, Hk. reflexivity.
Qed.

(** C2: the configuration attributes are the only source of the endpoint and
    of the API key: the environment never reaches the result, so with
    TRMM_API_KEY set in the environment and no api_key attribute, Configure
    reports the fatal error and produces no client. *)
Theorem Configure_ignores_environment :
  (∀ env env' config,
      trmmProvider.Configure env config = trmmProvider.Configure env' config)
  ∧ Scenario.env_with_key !! "TRMM_API_KEY" = Some "secret"
  ∧ trmmProvider.Configure Scenario.env_with_key Scenario.empty_config
    = {| trmmProvider.Diagnostics :=
           [diag.mk diag.SeverityError "Missing API Key"
                    trmmProvider.missing_api_key_detail];
         trmmProvider.DataSourceData := None;
         trmmProvider.ResourceData := None |}.
Proof.
  split; [reflexivity|]. split; reflexivity.
Qed.

(** ** Request bodies *)

(** A concrete key is none of the keys of a concrete list. *)
Ltac fresh_key :=
  rewrite ?not_elem_of_cons; repeat split; try done; apply not_elem_of_nil.

(** Splits [k ∉ [k1; ...; kn]] into the inequalities. *)
Ltac split_keys Hk :=
  rewrite ?not_elem_of_cons in Hk; destruct_and!.

Section Bodies.
Context `{GoLib}.

(** Keys that the optional scalar fields never write. *)
Lemma optional_fields_frame data t (body : gmap string json) (k : string) :
  k ∉ ["description"; "category"; "default_timeout"; "favorite"; "hidden";
       "run_as_user"; "syntax"] →
  ScriptResource.optional_fields data t body !! k = body !! k.
Proof.
  intros Hk. split_keys Hk. unfold ScriptResource.optional_fields.
  repeat case_match; rewrite ?lookup_insert_ne by done; done.
Qed.

(** Keys that the list fields never write. *)
Lemma array_fields_frame data (body : gmap string json) (k : string) :
  k ∉ ["args"; "env_vars"; "supported_platforms"] →
  (ScriptResource.array_fields data body).2 !! k = body !! k.
Proof.
  intros Hk. split_keys Hk. unfold ScriptResource.array_fields.
  repeat case_match; simplify_eq; simpl; rewrite ?lookup_insert_ne by done; done.
Qed.

Lemma create_body_script_type data :
  (ScriptResource.create_body data).2 !! "script_type" = Some (JString "userdefined").
Proof.
  unfold ScriptResource.create_body.
  rewrite array_fields_frame by fresh_key.
  rewrite optional_fields_frame by fresh_key.
  reflexivity.
Qed.

Lemma script_update_body_frame data (k : string) :
  k ∉ ["name"; "shell"; "script_body"; "description"; "category"; "default_timeout";
       "favorite"; "hidden"; "run_as_user"; "syntax"; "args"; "env_vars";
       "supported_platforms"] →
  (ScriptResource.update_body data).2 !! k = None.
Proof.
  intros Hk. split_keys Hk. unfold ScriptResource.update_body.
  rewrite array_fields_frame by (rewrite ?not_elem_of_cons; done).
  rewrite optional_fields_frame by (rewrite ?not_elem_of_cons; done).
  rewrite !lookup_insert_ne by done.
  apply lookup_empty.
Qed.

Lemma snippet_update_body_frame data (k : string) :
  k ∉ ["name"; "code"; "desc"; "shell"] →
  ScriptSnippetResource.update_body data !! k = None.
Proof.
  intros Hk. split_keys Hk. unfold ScriptSnippetResource.update_body.
  repeat case_match; rewrite !lookup_insert_ne by done; apply lookup_empty.
Qed.

Lemma keystore_update_body_frame data (k : string) :
  k ∉ ["name"; "value"] →
  KeyStoreResource.update_body data !! k = None.
Proof.
  intros Hk. split_keys Hk. unfold KeyStoreResource.update_body.
  rewrite !lookup_insert_ne by done.
  apply lookup_empty.
Qed.

End Bodies.

(** ** Create and Update: what is sent, and which identifier is kept *)

(** Closes the goal at a leaf of an Update: the PUT went out with a body
    that lacks the keys, and the response state holds the identifier. *)
Ltac put_leaf :=
  split;
  [ split_and!; try done;
    try (eexists; split; [reflexivity | repeat constructor; assumption]);
    repeat constructor
  | eexists _, _; split_and!; reflexivity ].

Section Sent.
Context `{GoLib} {server : Type}.
Variable serve : ClientConfig → http.Request → server → (error + http.Response) * server.

(** C10: whatever script_type the plan holds, the POST request of a Script
    Create carries script_type = "userdefined"; the POST is the first
    request, and the only one with a body. *)
Theorem Create_posts_userdefined c data (w : server) :
  match requests serve (ScriptResource.Create c data) w with
  | [] => url_error (BaseURL c +:+ "/scripts/") ≠ None
  | post :: rest =>
      http.Method post = "POST"
      ∧ (∃ body, http.ReqBody post = Some body
                 ∧ body !! "script_type" = Some (JString "userdefined"))
      ∧ Forall (λ req, http.Method req = "GET" ∧ http.ReqBody req = None) rest
  end.
Proof.
  pose proof (create_body_script_type data) as Hty.
  unfold requests, exchanges, ScriptResource.Create, http.NewRequest, fail.
  destruct (ScriptResource.create_body data) as [ds body]. simpl in Hty.
  destruct (url_error (BaseURL c +:+ "/scripts/")) as [e|] eqn:Hurl; [done|].
  cbn [run].
  destruct (serve _ _ w) as [[err|httpResp] w1]; simpl.
  { split; [done|]. split; [by exists body|]. constructor. }
  destruct (negb _); simpl.
  { split; [done|]. split; [by exists body|]. constructor. }
  destruct (serve _ _ w1) as [[err|listResp] w2]; simpl.
  { split; [done|]. split; [by exists body|]. by repeat constructor. }
  destruct (decode_maps _) as [err|scripts]; simpl;
    [|destruct (List.find _ scripts) as [createdScript|]; simpl;
      [destruct (ScriptResource.created _ _ _ _ _); simpl|]];
    (split; [done|]; split; [by exists body|]; by repeat constructor).
Qed.

Lemma script_Update_sends c plan state (w : server) :
  sends_put_without ["id"; "script_type"]
    (ScriptResource.entity_url c (ScriptResource.Id state))
    (requests serve (ScriptResource.Update c plan state) w)
  ∧ keeps_id ScriptResource.Id (ScriptResource.Id state)
      (result serve (ScriptResource.Update c plan state) w).
Proof.
  pose proof (script_update_body_frame
                (ScriptResource.with_id plan (ScriptResource.Id state)) "id") as Hid.
  pose proof (script_update_body_frame
                (ScriptResource.with_id plan (ScriptResource.Id state)) "script_type")
    as Hty.
  unfold sends_put_without, keeps_id, requests, exchanges, result,
    ScriptResource.Update, http.NewRequest, fail.
  destruct (ScriptResource.update_body _) as [ds body]. simpl in Hid, Hty.
  specialize (Hid ltac:(fresh_key)). specialize (Hty ltac:(fresh_key)).
  simpl ScriptResource.Id.
  destruct (url_error _) as [e|] eqn:Hurl; simpl.
  { split; [done|]. by eexists _, _. }
  cbn [run].
  destruct (serve _ _ w) as [[err|httpResp] w1]; simpl; [put_leaf|].
  destruct (negb _); simpl; [put_leaf|].
  destruct (serve _ _ w1) as [[err|getResp] w2]; simpl; [put_leaf|].
  destruct (negb _); simpl; [put_leaf|].
  destruct (decode_map _) as [err|res]; simpl; put_leaf.
Qed.

Lemma snippet_Update_sends c plan state (w : server) :
  sends_put_without ["id"]
    (ScriptSnippetResource.entity_url c (ScriptSnippetResource.Id state))
    (requests serve (ScriptSnippetResource.Update c plan state) w)
  ∧ keeps_id ScriptSnippetResource.Id (ScriptSnippetResource.Id state)
      (result serve (ScriptSnippetResource.Update c plan state) w).
Proof.
  pose proof (snippet_update_body_frame
                (ScriptSnippetResource.with_id plan (ScriptSnippetResource.Id state))
                "id" ltac:(fresh_key)) as Hid.
  unfold sends_put_without, keeps_id, requests, exchanges, result,
    ScriptSnippetResource.Update, http.NewRequest, fail.
  simpl ScriptSnippetResource.Id.
  destruct (url_error _) as [e|] eqn:Hurl; simpl.
  { split; [done|]. by eexists _, _. }
  cbn [run].
  destruct (serve _ _ w) as [[err|httpResp] w1]; simpl; [put_leaf|].
  destruct (negb _); simpl; [put_leaf|].
  destruct (serve _ _ w1) as [[err|getResp] w2]; simpl; [put_leaf|].
  destruct (negb _); simpl; [put_leaf|].
  destruct (decode_map _) as [err|res]; simpl; put_leaf.
Qed.

Lemma keystore_Update_sends c plan state (w : server) :
  sends_put_without ["id"]
    (BaseURL c +:+ "/core/keystore/"
       +:+ fmt_d (types.ValueInt64 (KeyStoreResource.Id state)) +:+ "/")
    (requests serve (KeyStoreResource.Update c plan state) w)
  ∧ keeps_id KeyStoreResource.Id (KeyStoreResource.Id state)
      (result serve (KeyStoreResource.Update c plan state) w).
Proof.
  pose proof (keystore_update_body_frame
                (KeyStoreResource.with_id plan (KeyStoreResource.Id state))
                "id" ltac:(fresh_key)) as Hid.
  unfold sends_put_without, keeps_id, requests, exchanges, result,
    KeyStoreResource.Update, http.NewRequest, fail.
  simpl KeyStoreResource.Id.
  destruct (url_error _) as [e|] eqn:Hurl; simpl.
  { split; [done|]. by eexists _, _. }
  cbn [run].
  destruct (serve _ _ w) as [[err|httpResp] w1]; simpl; [put_leaf|].
  destruct (negb _); simpl; put_leaf.
Qed.

(** C8: the PUT body of every Update has no "id" field, the PUT body of a
    Script Update has no "script_type" field either, no other request of an
    Update has a body, and the state that an Update leaves holds the
    identifier of the prior state. *)
Theorem Update_frame c (w : server) :
  (∀ plan state,
     sends_put_without ["id"; "script_type"]
       (ScriptResource.entity_url c (ScriptResource.Id state))
       (requests serve (ScriptResource.Update c plan state) w)
     ∧ keeps_id ScriptResource.Id (ScriptResource.Id state)
         (result serve (ScriptResource.Update c plan state) w))
  ∧ (∀ plan state,
       sends_put_without ["id"]
         (ScriptSnippetResource.entity_url c (ScriptSnippetResource.Id state))
         (requests serve (ScriptSnippetResource.Update c plan state) w)
       ∧ keeps_id ScriptSnippetResource.Id (ScriptSnippetResource.Id state)
           (result serve (ScriptSnippetResource.Update c plan state) w))
  ∧ (∀ plan state,
       sends_put_without ["id"]
         (BaseURL c +:+ "/core/keystore/"
            +:+ fmt_d (types.ValueInt64 (KeyStoreResource.Id state)) +:+ "/")
         (requests serve (KeyStoreResource.Update c plan state) w)
       ∧ keeps_id KeyStoreResource.Id (KeyStoreResource.Id state)
           (result serve (KeyStoreResource.Update c plan state) w)).
Proof.
  split_and!; intros plan state.
  - apply script_Update_sends.
  - apply snippet_Update_sends.
  - apply keystore_Update_sends.
Qed.

End Sent.

(** ** Update: what the error of a rejected PUT says *)

Lemma prefix_app (sub post : string) : String.prefix sub (sub +:+ post) = true.
Proof.
  induction sub as [|a sub IH]; simpl.
  - by destruct post.
  - destruct (ascii_dec a a); [done|congruence].
Qed.

Lemma includes_contains (sub s : string) : includes sub s → contains sub s = true.
Proof.
  intros (pre & post & ->).
  induction pre as [|a pre IH].
  - change (EmptyString +:+ sub +:+ post) with (sub +:+ post).
    pose proof (prefix_app sub post) as Hp.
    destruct (sub +:+ post); cbn [contains]; by rewrite Hp.
  - change (String a pre +:+ sub +:+ post) with (String a (pre +:+ sub +:+ post)).
    cbn [contains]. rewrite IH. apply orb_true_r.
Qed.

Lemma append_nil_r (s : string) : s +:+ EmptyString = s.
Proof.
  induction s as [|a s IH]; [done|].
  change (String a s +:+ EmptyString) with (String a (s +:+ EmptyString)).
  by rewrite IH.
Qed.

Lemma append_assoc (s1 s2 s3 : string) : (s1 +:+ s2) +:+ s3 = s1 +:+ (s2 +:+ s3).
Proof.
  induction s1 as [|a s1 IH]; [done|].
  change (String a (s1 +:+ s2) +:+ s3 = String a (s1 +:+ s2 +:+ s3)).
  change (String a ((s1 +:+ s2) +:+ s3) = String a (s1 +:+ s2 +:+ s3)).
  by rewrite IH.
Qed.

Lemma includes_refl (s : string) : includes s s.
Proof. exists EmptyString, EmptyString. simpl. by rewrite append_nil_r. Qed.

Lemma includes_after (sub p s : string) : includes sub s → includes sub (p +:+ s).
Proof.
  intros (pre & post & ->). exists (p +:+ pre), post. by rewrite append_assoc.
Qed.

Section Rejected.
Context `{GoLib} {server : Type}.
Variable serve : ClientConfig → http.Request → server → (error + http.Response) * server.

(** The keystore Update quotes the body of a rejected PUT in its error. *)
Lemma keystore_Update_error_quotes_body c plan state (w w1 : server) resp :
  let url := BaseURL c +:+ "/core/keystore/"
               +:+ fmt_d (types.ValueInt64 (KeyStoreResource.Id state)) +:+ "/" in
  let data := KeyStoreResource.with_id plan (KeyStoreResource.Id state) in
  url_error url = None →
  serve c (http.mkRequest "PUT" url (Some (KeyStoreResource.update_body data))) w
    = (inr resp, w1) →
  http.StatusCode resp ≠ http.StatusOK →
  ∃ detail,
    result serve (KeyStoreResource.Update c plan state) w
      = Some (mkResp [diag.mk diag.SeverityError "Client Error" detail] (Some state))
    ∧ includes (http.Text (http.body resp)) detail.
Proof.
  intros url data Hurl Hput Hstatus. subst url data.
  unfold result, KeyStoreResource.Update, http.NewRequest, fail.
  cbn [KeyStoreResource.Id KeyStoreResource.with_id] in *.
  rewrite Hurl. cbn [run]. rewrite Hput.
  apply Z.eqb_neq in Hstatus. rewrite Hstatus. simpl.
  eexists. split; [reflexivity|].
  do 7 apply includes_after. apply includes_refl.
Qed.

(** The script Update reports the status code of a rejected PUT and
    nothing of its body. *)
Lemma script_Update_error_is_status c plan state (w w1 : server) resp :
  let data := ScriptResource.with_id plan (ScriptResource.Id state) in
  let url := ScriptResource.entity_url c (ScriptResource.Id state) in
  url_error url = None →
  serve c (http.mkRequest "PUT" url (Some (ScriptResource.update_body data).2)) w
    = (inr resp, w1) →
  http.StatusCode resp ≠ http.StatusOK →
  result serve (ScriptResource.Update c plan state) w
  = Some (mkResp
            (diag.AddError (ScriptResource.update_body data).1 "Client Error"
               ("Unable to update script, status code: "
                  +:+ fmt_d (http.StatusCode resp)))
            (Some state)).
Proof.
  intros data url Hurl Hput Hstatus. subst url data.
  unfold result, ScriptResource.Update, http.NewRequest, fail.
  destruct (ScriptResource.update_body _) as [ds body].
  cbn [ScriptResource.Id ScriptResource.with_id fst snd] in *.
  rewrite Hurl. cbn [run]. rewrite Hput.
  apply Z.eqb_neq in Hstatus. rewrite Hstatus. reflexivity.
Qed.

End Rejected.

(** C9, evaluated where the server rejects the PUT with status 400 and an
    explanation in the body: the keystore Update quotes the explanation in
    its error, the script and snippet Updates report the status code alone. *)
Theorem Update_error_detail_at_rejection :
  Scenario.rejected_script_update
  = Some (mkResp [diag.mk diag.SeverityError "Client Error"
                    "Unable to update script, status code: 400"]
            (Some Scenario.script_state))
  ∧ ¬ includes Scenario.rejection_text "Unable to update script, status code: 400"
  ∧ Scenario.rejected_snippet_update
    = Some (mkResp [diag.mk diag.SeverityError "Client Error"
                      "Unable to update script snippet, status code: 400"]
              (Some Scenario.snippet_state))
  ∧ ¬ includes Scenario.rejection_text
        "Unable to update script snippet, status code: 400"
  ∧ ∃ detail,
      Scenario.rejected_keystore_update
      = Some (mkResp [diag.mk diag.SeverityError "Client Error" detail]
                (Some Scenario.keystore_state))
      ∧ includes Scenario.rejection_text detail.
Proof.
  split_and!.
  - reflexivity.
  - intros Hin. apply includes_contains in Hin. vm_compute in Hin. discriminate.
  - reflexivity.
  - intros Hin. apply includes_contains in Hin. vm_compute in Hin. discriminate.
  - eexists. split; [reflexivity|].
    exists "Unable to update keystore entry ID 5, status code: 400, URL: https://rmm.example.com/core/keystore/5/, response: ", EmptyString.
    reflexivity.
Qed.

(** ** Read: an entity that is gone, and other failures *)

Lemma find_none_Forall {A} (f : A → bool) (l : list A) :
  Forall (λ x, f x = false) l → List.find f l = None.
Proof. induction 1 as [|x l Hx _ IH]; simpl; [done|]. by rewrite Hx. Qed.

Section Gone.
Context `{GoLib} {server : Type}.
Variable serve : ClientConfig → http.Request → server → (error + http.Response) * server.





End Gone.


(** ** Plural data sources: the id filter *)



Section PluralId.
Context `{GoLib} {server : Type}.
Variable serve : ClientConfig → http.Request → server → (error + http.Response) * server.





End PluralId.


(** ** Plural scripts data source: the filters *)







Lemma filter_sublist {A} (f : A → bool) (l : list A) : sublist (List.filter f l) l.
Proof.
  induction l as [|a l IH]; simpl; [constructor|].
  destruct (f a); by constructor.
Qed.

Lemma elem_of_filter_bool {A} (f : A → bool) (l : list A) (x : A) :
  x ∈ List.filter f l ↔ x ∈ l ∧ f x = true.
Proof. rewrite !list_elem_of_In. apply List.filter_In. Qed.

Section PluralFilters.
Context `{GoLib} {server : Type}.
Variable serve : ClientConfig → http.Request → server → (error + http.Response) * server.


End PluralFilters.




(** ** Singular data sources: lookup by id *)

Section SingularId.
Context `{GoLib} {server : Type}.
Variable serve : ClientConfig → http.Request → server → (error + http.Response) * server.





Lemma find_first_with {A} (f : A → bool) (x : A) (l : list A) :
  first_with f x l → List.find f l = Some x.
Proof.
  intros (pre & post & -> & Hx & Hpre).
  induction Hpre as [|y pre Hy _ IH]; simpl; [by rewrite Hx|by rewrite Hy].
Qed.





End SingularId.


(** ** Malformed input *)

Lemma parse_digits_nondigit (s : string) (n : Z) :
  all_digits s = false → ∃ range, parse_digits n s = inl range.
Proof.
  revert n. induction s as [|c s IH]; intros n; [done|].
  unfold all_digits. cbn [list_ascii_of_string forallb parse_digits].
  destruct (is_digit c); cbn [negb andb]; [|by eauto].
  intros Hs. destruct (_ <=? n); [by eauto|].
  destruct (_ <? _); [by eauto|]. by apply IH.
Qed.

Lemma ParseUint_nondigit (s : string) :
  nonempty s && all_digits s = false → ∃ range, ParseUint s = inl range.
Proof.
  destruct s as [|c s]; [by eexists|].
  cbn [nonempty andb]. apply parse_digits_nondigit.
Qed.

Lemma all_digits_nonempty (s : string) :
  all_digits s = false → nonempty s && all_digits s = false.
Proof. intros ->. apply andb_false_r. Qed.

(** [strconv.ParseInt] rejects every identifier that is not numeric. *)
Lemma ParseInt_not_numeric `{GoLib} (ID : string) :
  numeric ID = false → ∃ err, ParseInt ID = inl err.
Proof.
  destruct ID as [|c rest]; [by eexists|].
  unfold numeric, ParseInt.
  destruct (bool_decide (c = "+"%char)); cbn [orb].
  - intros [range Hu]%ParseUint_nondigit. rewrite Hu. destruct range; by eexists.
  - destruct (bool_decide (c = "-"%char)).
    + intros [range Hu]%ParseUint_nondigit. rewrite Hu. destruct range; by eexists.
    + intros [range Hu]%all_digits_nonempty%ParseUint_nondigit. rewrite Hu.
      destruct range; by eexists.
Qed.

Section Malformed.
Context `{GoLib} {server : Type}.
Variable serve : ClientConfig → http.Request → server → (error + http.Response) * server.


End Malformed.



(** A numeric identifier is imported: only the id is set. *)
Example ImportState_numeric :
  ScriptResource.ImportState (H := Scenario.golib) "42"
  = mkResp [] (Some (ScriptResource.imported 42))
  ∧ KeyStoreResource.ImportState (H := Scenario.golib) "-7"
    = mkResp [] (Some (KeyStoreResource.imported (-7))).
Proof. split; reflexivity. Qed.

(** ** Script resource: null and empty lists *)




Lemma created_field f data createdScript st :
  ScriptResource.created data createdScript
    (types.IsNull (ScriptResource.Args data))
    (types.IsNull (ScriptResource.EnvVars data))
    (types.IsNull (ScriptResource.SupportedPlatforms data)) = Some st →
  ScriptResource.created_list (types.IsNull (field_of f data)) (field_of f data)
    (createdScript !! field_key f)
  = Some (field_of f st).
Proof.
  unfold ScriptResource.created.
  destruct (ScriptResource.created_list _ (ScriptResource.Args data) _)
    as [a|] eqn:Ha; [|done].
  destruct (ScriptResource.created_list _ (ScriptResource.EnvVars data) _)
    as [e|] eqn:He; [|done].
  destruct (ScriptResource.created_list _ (ScriptResource.SupportedPlatforms data) _)
    as [p|] eqn:Hp; [|done].
  cbn -[ScriptResource.created_list]. intros [= <-]. by destruct f.
Qed.



Section Decoded.
Context `{GoLib}.




End Decoded.

Section TriState.
Context `{GoLib} {server : Type}.
Variable serve : ClientConfig → http.Request → server → (error + http.Response) * server.








End TriState.



(** * Further properties *)

(** ** Import identifiers *)

Lemma is_digit_range (c : ascii) :
  is_digit c = true → 0 ≤ Z.of_nat (nat_of_ascii c) - 48 ≤ 9.
Proof. unfold is_digit. rewrite andb_true_iff, !Z.leb_le. lia. Qed.

Lemma all_digits_cons (c : ascii) (s : string) :
  all_digits (String c s) = is_digit c && all_digits s.
Proof. reflexivity. Qed.

Lemma digits_acc_ge (s : string) (n : Z) :
  all_digits s = true → 0 ≤ n → n ≤ digits_acc n s.
Proof.
  revert n. induction s as [|c s IH]; intros n; [simpl; lia|].
  rewrite all_digits_cons, andb_true_iff. intros [Hc%is_digit_range Hs] Hn.
  cbn [digits_acc]. specialize (IH (n * 10 + (Z.of_nat (nat_of_ascii c) - 48)) Hs).
  lia.
Qed.

(** The digit loop of [ParseUint] computes the decimal value when it fits 64
    bits and reports a range error when it does not. *)
Lemma parse_digits_value (s : string) (n : Z) :
  all_digits s = true → 0 ≤ n ≤ 18446744073709551615 →
  parse_digits n s
  = if digits_acc n s <=? 18446744073709551615 then inr (digits_acc n s) else inl true.
Proof.
  revert n. induction s as [|c s IH]; intros n.
  - intros _ Hn. cbn [parse_digits digits_acc].
    destruct (Z.leb_spec n 18446744073709551615); [done|lia].
  - rewrite all_digits_cons, andb_true_iff. intros [Hc Hs] Hn.
    cbn [parse_digits digits_acc]. rewrite Hc. cbn [negb].
    pose proof (is_digit_range c Hc) as Hd.
    set (d := Z.of_nat (nat_of_ascii c) - 48) in *.
    change ((2 ^ 64 - 1) / 10 + 1) with 1844674407370955162.
    change (2 ^ 64 - 1) with 18446744073709551615.
    pose proof (digits_acc_ge s (n * 10 + d) Hs ltac:(lia)) as Hge.
    destruct (Z.leb_spec 1844674407370955162 n).
    { destruct (Z.leb_spec (digits_acc (n * 10 + d) s) 18446744073709551615);
        [lia|done]. }
    destruct (Z.ltb_spec 18446744073709551615 (n * 10 + d)).
    { destruct (Z.leb_spec (digits_acc (n * 10 + d) s) 18446744073709551615);
        [lia|done]. }
    apply IH; [done|lia].
Qed.

Lemma ParseUint_value (s : string) :
  nonempty s && all_digits s = true →
  ParseUint s
  = if digits_acc 0 s <=? 18446744073709551615 then inr (digits_acc 0 s) else inl true.
Proof.
  destruct s as [|c s]; [done|]. cbn [nonempty andb]. intros Hs.
  unfold ParseUint. by apply parse_digits_value.
Qed.

(** Decides the comparisons of the goal one after the other and closes the
    cases by arithmetic. *)
Ltac compare_bounds :=
  repeat (match goal with
          | |- context [?a <=? ?b] => destruct (Z.leb_spec a b)
          | |- context [?a <? ?b] => destruct (Z.ltb_spec a b)
          end; cbn [negb andb orb]);
  first [done | lia | f_equal; lia].

Lemma digits_acc_nonneg (s : string) :
  nonempty s && all_digits s = true → 0 ≤ digits_acc 0 s.
Proof. intros [_ Hs]%andb_true_iff. by apply digits_acc_ge. Qed.

(** [strconv.ParseInt] accepts exactly the numeric identifiers whose value
    fits an [int64], and yields that value. *)
Lemma ParseInt_value `{GoLib} (ID : string) :
  numeric ID = true →
  ParseInt ID
  = if in_int64 (int_value ID) then inr (int_value ID)
    else inl (strconv_error ID "value out of range").
Proof.
  destruct ID as [|c rest]; [done|].
  unfold numeric, ParseInt, int_value, in_int64.
  change (2 ^ 63) with 9223372036854775808.
  destruct (bool_decide (c = "+"%char)); cbn [orb].
  - intros Hs. rewrite (ParseUint_value rest Hs).
    pose proof (digits_acc_nonneg rest Hs) as Hge.
    set (v := digits_acc 0 rest) in *. cbn [negb andb]. compare_bounds.
  - destruct (bool_decide (c = "-"%char)).
    + intros Hs. rewrite (ParseUint_value rest Hs).
      pose proof (digits_acc_nonneg rest Hs) as Hge.
      set (v := digits_acc 0 rest) in *. cbn [negb andb]. compare_bounds.
    + intros Hs.
      assert (nonempty (String c rest) && all_digits (String c rest) = true) as Hs'
        by done.
      rewrite (ParseUint_value _ Hs').
      pose proof (digits_acc_nonneg _ Hs') as Hge.
      set (v := digits_acc 0 (String c rest)) in *. cbn [negb andb]. compare_bounds.
Qed.

Section ImportIds.
Context `{GoLib}.

(** X1: an import identifier is accepted exactly when it is an optional sign
    followed by decimal digits whose value fits an int64; the imported state
    then holds that value as the id and nothing else, and every other
    identifier is an Invalid ID error that leaves no state.  The three
    resources agree. *)
Theorem ImportState_accepts_int64 (ID : string) :
  if numeric ID && in_int64 (int_value ID) then
    ScriptResource.ImportState ID
    = mkResp [] (Some (ScriptResource.imported (int_value ID)))
    ∧ ScriptSnippetResource.ImportState ID
      = mkResp [] (Some (ScriptSnippetResource.imported (int_value ID)))
    ∧ KeyStoreResource.ImportState ID
      = mkResp [] (Some (KeyStoreResource.imported (int_value ID)))
  else
    ∃ err,
      ScriptResource.ImportState ID
      = mkResp [diag.mk diag.SeverityError "Invalid ID" ("Unable to parse ID: " +:+ err)]
          None
      ∧ ScriptSnippetResource.ImportState ID
        = mkResp [diag.mk diag.SeverityError "Invalid ID" ("Unable to parse ID: " +:+ err)]
            None
      ∧ KeyStoreResource.ImportState ID
        = mkResp [diag.mk diag.SeverityError "Invalid ID" ("Unable to parse ID: " +:+ err)]
            None.
Proof.
  unfold ScriptResource.ImportState, ScriptSnippetResource.ImportState,
    KeyStoreResource.ImportState.
  destruct (numeric ID) eqn:Hnum; cbn [andb].
  - rewrite (ParseInt_value ID Hnum).
    destruct (in_int64 (int_value ID)); [done|]. by eexists.
  - destruct (ParseInt_not_numeric ID Hnum) as [err ->]. by eexists.
Qed.

End ImportIds.

(** ** Lists of the server that hold something else than strings *)

Lemma ListValueMust_attr_values_None (xs : list json) :
  types.ListValueMust (attr_values xs) = None ↔ Exists (λ x, non_string x = true) xs.
Proof.
  unfold types.ListValueMust, attr_values.
  rewrite fmap_None, mapM_None, Exists_fmap.
  split; intros Hex; eapply Exists_impl; try exact Hex; intros x; by destruct x.
Qed.

Lemma read_list_None (old : types.List) (v : option json) :
  ScriptResource.read_list old v = None
  ↔ ∃ xs, as_slice v = Some xs ∧ Exists (λ x, non_string x = true) xs.
Proof.
  unfold ScriptResource.read_list. destruct (as_slice v) as [[|x xs]|].
  - split; [done|]. intros (? & [= <-] & Hex). by apply Exists_nil in Hex.
  - rewrite ListValueMust_attr_values_None. split; [by eauto|].
    by intros (? & [= <-] & Hex).
  - split; [done|]. by intros (? & ? & _).
Qed.

Lemma refreshed_None data (result : gmap string json) :
  ScriptResource.refreshed data result = None
  ↔ ∃ f xs, as_slice (result !! field_key f) = Some xs
            ∧ Exists (λ x, non_string x = true) xs.
Proof.
  unfold ScriptResource.refreshed. split.
  - destruct (ScriptResource.read_list (ScriptResource.Args data) _) as [a|] eqn:Ha.
    2:{ intros _. exists args. by apply read_list_None in Ha. }
    destruct (ScriptResource.read_list (ScriptResource.EnvVars data) _) as [e|] eqn:He.
    2:{ intros _. exists env_vars. by apply read_list_None in He. }
    destruct (ScriptResource.read_list (ScriptResource.SupportedPlatforms data) _)
      as [p|] eqn:Hp; [done|].
    intros _. exists supported_platforms. by apply read_list_None in Hp.
  - intros (f & xs & Hxs & Hex).
    assert (ScriptResource.read_list (field_of f data) (result !! field_key f) = None)
      as Hnone by (apply read_list_None; eauto).
    destruct f; cbn [field_of field_key] in Hnone.
    + by rewrite Hnone.
    + destruct (ScriptResource.read_list (ScriptResource.Args data) _); [|done].
      cbn [mbind option_bind]. by rewrite Hnone.
    + destruct (ScriptResource.read_list (ScriptResource.Args data) _); [|done].
      cbn [mbind option_bind].
      destruct (ScriptResource.read_list (ScriptResource.EnvVars data) _); [|done].
      cbn [mbind option_bind]. by rewrite Hnone.
Qed.

Section NonStrings.
Context `{GoLib} {server : Type}.
Variable serve : ClientConfig → http.Request → server → (error + http.Response) * server.

(** X2: a Read of a script that gets the record with status 200 ends in a
    panic, with no diagnostics and no state, exactly when args, env_vars or
    supported_platforms of the record is an array with an element that is
    not a string. *)
Theorem script_Read_panics c data (w w1 : server) resp record :
  url_error (ScriptResource.entity_url c (ScriptResource.Id data)) = None →
  serve c (http.mkRequest "GET" (ScriptResource.entity_url c (ScriptResource.Id data)) None) w
    = (inr resp, w1) →
  http.StatusCode resp = http.StatusOK →
  decode_map (http.body resp) = inr record →
  result serve (ScriptResource.Read c data) w = None
  ↔ ∃ f xs, as_slice (record !! field_key f) = Some xs
            ∧ Exists (λ x, non_string x = true) xs.
Proof.
  intros Hurl Hget Hok Hdec. rewrite <- (refreshed_None data).
  unfold result, ScriptResource.Read, http.NewRequest, fail.
  rewrite Hurl. cbn [run]. rewrite Hget, Hok. simpl. rewrite Hdec.
  by destruct (ScriptResource.refreshed data record).
Qed.

End NonStrings.

(** X2 at a concrete server: the script comes back with args = ["-Verbose", 3]. *)
Lemma script_Read_panics_witness :
  result Scenario.replay
    (ScriptResource.Read (H := Scenario.golib) Scenario.client Scenario.script_state)
    [inr Cases.numeric_arg_reply]
  = None.
Proof.
  apply (script_Read_panics (H := Scenario.golib) Scenario.replay Scenario.client
           Scenario.script_state [inr Cases.numeric_arg_reply] []
           Cases.numeric_arg_reply Cases.numeric_arg_map
           eq_refl eq_refl eq_refl eq_refl).
  exists args, [JString "-Verbose"; JInt 3]. split; [reflexivity|].
  apply Exists_cons_tl, Exists_cons_hd. reflexivity.
Defined.

(** ** Reads only read *)

(** Walks through a handler: decides every test on the way, and reduces the
    run at each call and at each leaf. *)
Ltac walk serve :=
  repeat first
    [ progress cbn [run fail fst snd fmap list_fmap]
    | match goal with
      | |- context [url_error ?u] => destruct (url_error u)
      | |- context [serve ?c ?r ?w] => destruct (serve c r w) as [[?|?] ?]
      | |- context [run _ (match ?x with _ => _ end)] => destruct x
      | |- context [run _ (if ?x then _ else _)] => destruct x
      | |- context [run _ (let (_, _) := ?x in _)] => destruct x
      end ].

Section ReadOnly.
Context `{GoLib} {server : Type}.
Variable serve : ClientConfig → http.Request → server → (error + http.Response) * server.

Ltac one_get :=
  unfold at_most_one_get, requests, exchanges, http.NewRequest;
  walk serve; first [by left | right; by eexists].

(** X3: the Read of each resource and of each data source sends nothing but
    GET requests without a body, and at most one of them. *)
Theorem Reads_only_get c (w : server) :
  (∀ data, at_most_one_get (requests serve (ScriptResource.Read c data) w))
  ∧ (∀ data, at_most_one_get (requests serve (ScriptSnippetResource.Read c data) w))
  ∧ (∀ data, at_most_one_get (requests serve (KeyStoreResource.Read c data) w))
  ∧ (∀ data, at_most_one_get (requests serve (ScriptDataSource.Read c data) w))
  ∧ (∀ data, at_most_one_get (requests serve (ScriptSnippetDataSource.Read c data) w))
  ∧ (∀ data, at_most_one_get (requests serve (KeyStoreDataSource.Read c data) w))
  ∧ (∀ data, at_most_one_get (requests serve (ScriptsDataSource.Read c data) w))
  ∧ (∀ data, at_most_one_get (requests serve (ScriptSnippetsDataSource.Read c data) w))
  ∧ (∀ data, at_most_one_get (requests serve (KeyStoresDataSource.Read c data) w)).
Proof.
  split_and!; intros data.
  - unfold ScriptResource.Read. one_get.
  - unfold ScriptSnippetResource.Read. one_get.
  - unfold KeyStoreResource.Read. one_get.
  - unfold ScriptDataSource.Read. one_get.
  - unfold ScriptSnippetDataSource.Read. one_get.
  - unfold KeyStoreDataSource.Read. one_get.
  - unfold ScriptsDataSource.Read. one_get.
  - unfold ScriptSnippetsDataSource.Read. one_get.
  - unfold KeyStoresDataSource.Read. one_get.
Qed.

End ReadOnly.

(** ** Delete *)

Lemma delete_outcome_status (what : string) (status : Z) :
  delete_outcome what status
    (Some (if negb (status =? http.StatusOK) && negb (status =? http.StatusNoContent)
           then diag.AddError [] "Client Error"
                  ("Unable to delete " +:+ what +:+ ", status code: " +:+ fmt_d status)
           else [])).
Proof.
  unfold delete_outcome, http.StatusOK, http.StatusNoContent.
  eexists. split; [reflexivity|].
  destruct (Z.eqb_spec status 200), (Z.eqb_spec status 204); cbn [negb andb];
    (split; [|by auto]); split; try done; try (by auto); intros [|]; done.
Qed.

Section Deleted.
Context `{GoLib} {server : Type}.
Variable serve : ClientConfig → http.Request → server → (error + http.Response) * server.

(** X4: a Delete sends one DELETE request without a body to the URL of the
    entity; the statuses 200 and 204 both end it without a diagnostic, every
    other status is an error that gives the status. *)
Theorem Delete_outcome c (w w1 : server) resp :
  (∀ data,
     let url := ScriptResource.entity_url c (ScriptResource.Id data) in
     url_error url = None →
     serve c (http.mkRequest "DELETE" url None) w = (inr resp, w1) →
     requests serve (ScriptResource.Delete c data) w = [http.mkRequest "DELETE" url None]
     ∧ delete_outcome "script" (http.StatusCode resp)
         (result serve (ScriptResource.Delete c data) w))
  ∧ (∀ data,
       let url := ScriptSnippetResource.entity_url c (ScriptSnippetResource.Id data) in
       url_error url = None →
       serve c (http.mkRequest "DELETE" url None) w = (inr resp, w1) →
       requests serve (ScriptSnippetResource.Delete c data) w
       = [http.mkRequest "DELETE" url None]
       ∧ delete_outcome "script snippet" (http.StatusCode resp)
           (result serve (ScriptSnippetResource.Delete c data) w))
  ∧ (∀ data,
       let url := BaseURL c +:+ "/core/keystore/"
                    +:+ fmt_d (types.ValueInt64 (KeyStoreResource.Id data)) +:+ "/" in
       url_error url = None →
       serve c (http.mkRequest "DELETE" url None) w = (inr resp, w1) →
       requests serve (KeyStoreResource.Delete c data) w
       = [http.mkRequest "DELETE" url None]
       ∧ delete_outcome "keystore entry" (http.StatusCode resp)
           (result serve (KeyStoreResource.Delete c data) w)).
Proof.
  split_and!; intros data url Hurl Hdel; subst url.
  - unfold requests, exchanges, result, ScriptResource.Delete, http.NewRequest.
    rewrite Hurl. cbn [run]. rewrite Hdel.
    split; [by destruct (_ && _)|].
    pose proof (delete_outcome_status "script" (http.StatusCode resp)) as Hout.
    by destruct (_ && _).
  - unfold requests, exchanges, result, ScriptSnippetResource.Delete, http.NewRequest.
    rewrite Hurl. cbn [run]. rewrite Hdel.
    split; [by destruct (_ && _)|].
    pose proof (delete_outcome_status "script snippet" (http.StatusCode resp)) as Hout.
    by destruct (_ && _).
  - unfold requests, exchanges, result, KeyStoreResource.Delete, http.NewRequest.
    rewrite Hurl. cbn [run]. rewrite Hdel.
    split; [by destruct (_ && _)|].
    pose proof (delete_outcome_status "keystore entry" (http.StatusCode resp)) as Hout.
    by destruct (_ && _).
Qed.

End Deleted.

(** X4 at a concrete server that answers the DELETE of a script with 204. *)
Lemma Delete_outcome_witness :
  result Scenario.replay
    (ScriptResource.Delete (H := Scenario.golib) Scenario.client Scenario.script_state)
    [inr Cases.no_content]
  = Some [].
Proof.
  destruct (proj2 (proj1 (Delete_outcome (H := Scenario.golib) Scenario.replay
                            Scenario.client [inr Cases.no_content] [] Cases.no_content)
                     Scenario.script_state eq_refl eq_refl))
    as (ds & Hres & Hok & _).
  rewrite Hres. f_equal.
  assert (diag.HasError ds = false) as Hnone by (apply Hok; by right).
  destruct ds as [|d ds]; [reflexivity|].
  exfalso. revert Hres. vm_compute. discriminate.
Defined.

(** ** Create: the POST and the search of the created record *)

Section Created.
Context `{GoLib} {server : Type}.
Variable serve : ClientConfig → http.Request → server → (error + http.Response) * server.

(** X5: when the server answers the POST of a Create with another status
    than 200, the Create exchanges nothing more with the server (the
    collection is not listed), writes no state, and reports one error that
    gives the status. *)
Theorem Create_stops_at_rejected_post c (w w1 : server) resp :
  http.StatusCode resp ≠ http.StatusOK →
  (∀ data,
     let post := http.mkRequest "POST" (BaseURL c +:+ "/scripts/")
                   (Some (ScriptResource.create_body data).2) in
     url_error (BaseURL c +:+ "/scripts/") = None →
     serve c post w = (inr resp, w1) →
     run serve (ScriptResource.Create c data) w
     = (Some (mkResp
                (diag.AddError (ScriptResource.create_body data).1 "Client Error"
                   ("Unable to create script, status code: "
                      +:+ fmt_d (http.StatusCode resp)))
                None),
        w1, [(post, inr resp)]))
  ∧ (∀ data,
       let post := http.mkRequest "POST" (BaseURL c +:+ "/scripts/snippets/")
                     (Some (ScriptSnippetResource.create_body data)) in
       url_error (BaseURL c +:+ "/scripts/snippets/") = None →
       serve c post w = (inr resp, w1) →
       run serve (ScriptSnippetResource.Create c data) w
       = (Some (mkResp
                  [diag.mk diag.SeverityError "Client Error"
                     ("Unable to create script snippet, status code: "
                        +:+ fmt_d (http.StatusCode resp))]
                  None),
          w1, [(post, inr resp)]))
  ∧ (∀ data,
       let post := http.mkRequest "POST" (BaseURL c +:+ "/core/keystore/")
                     (Some (KeyStoreResource.create_body data)) in
       url_error (BaseURL c +:+ "/core/keystore/") = None →
       serve c post w = (inr resp, w1) →
       run serve (KeyStoreResource.Create c data) w
       = (Some (mkResp
                  [diag.mk diag.SeverityError "Client Error"
                     ("Unable to create keystore entry, status code: "
                        +:+ fmt_d (http.StatusCode resp))]
                  None),
          w1, [(post, inr resp)])).
Proof.
  intros Hstatus%Z.eqb_neq. split_and!; intros data post Hurl Hpost; subst post.
  - unfold ScriptResource.Create, http.NewRequest, fail.
    destruct (ScriptResource.create_body data) as [ds body]. cbn [fst snd] in *.
    rewrite Hurl. cbn [run]. rewrite Hpost, Hstatus. reflexivity.
  - unfold ScriptSnippetResource.Create, http.NewRequest, fail.
    rewrite Hurl. cbn [run]. rewrite Hpost, Hstatus. reflexivity.
  - unfold KeyStoreResource.Create, http.NewRequest, fail.
    rewrite Hurl. cbn [run]. rewrite Hpost, Hstatus. reflexivity.
Qed.

(** X6: after an accepted POST, a Create lists the collection and takes the
    first record whose name is the planned name, whatever the status of the
    list response is: without such a record it reports that the created
    entity was not found and writes no state; with one, it writes the state
    made from the plan and that record. *)
Theorem Create_finds_first_by_name c (w w1 w2 : server) posted listed entries :
  http.StatusCode posted = http.StatusOK →
  decode_maps (http.body listed) = inr entries →
  (∀ data,
     let url := BaseURL c +:+ "/scripts/" in
     let name := types.ValueString (ScriptResource.Name data) in
     url_error url = None →
     serve c (http.mkRequest "POST" url (Some (ScriptResource.create_body data).2)) w
       = (inr posted, w1) →
     serve c (http.mkRequest "GET" url None) w1 = (inr listed, w2) →
     (Forall (λ entry, has_name name entry = false) entries →
        result serve (ScriptResource.Create c data) w
        = Some (mkResp
                  (diag.AddError (ScriptResource.create_body data).1 "Client Error"
                     "Unable to find created script")
                  None))
     ∧ (∀ entry,
          first_with (has_name name) entry entries →
          result serve (ScriptResource.Create c data) w
          = (st ← ScriptResource.created data entry
                    (types.IsNull (ScriptResource.Args data))
                    (types.IsNull (ScriptResource.EnvVars data))
                    (types.IsNull (ScriptResource.SupportedPlatforms data));
             Some (mkResp (ScriptResource.create_body data).1 (Some st)))))
  ∧ (∀ data,
       let url := BaseURL c +:+ "/scripts/snippets/" in
       let name := types.ValueString (ScriptSnippetResource.Name data) in
       url_error url = None →
       serve c (http.mkRequest "POST" url (Some (ScriptSnippetResource.create_body data))) w
         = (inr posted, w1) →
       serve c (http.mkRequest "GET" url None) w1 = (inr listed, w2) →
       (Forall (λ entry, has_name name entry = false) entries →
          result serve (ScriptSnippetResource.Create c data) w
          = Some (mkResp
                    [diag.mk diag.SeverityError "Client Error"
                       "Unable to find created script snippet"]
                    None))
       ∧ (∀ entry,
            first_with (has_name name) entry entries →
            result serve (ScriptSnippetResource.Create c data) w
            = Some (mkResp [] (Some (ScriptSnippetResource.created data entry)))))
  ∧ (∀ data,
       let url := BaseURL c +:+ "/core/keystore/" in
       let name := types.ValueString (KeyStoreResource.Name data) in
       url_error url = None →
       serve c (http.mkRequest "POST" url (Some (KeyStoreResource.create_body data))) w
         = (inr posted, w1) →
       serve c (http.mkRequest "GET" url None) w1 = (inr listed, w2) →
       (Forall (λ entry, has_name name entry = false) entries →
          result serve (KeyStoreResource.Create c data) w
          = Some (mkResp
                    [diag.mk diag.SeverityError "Client Error"
                       "Unable to find created keystore entry"]
                    None))
       ∧ (∀ entry,
            first_with (has_name name) entry entries →
            result serve (KeyStoreResource.Create c data) w
            = Some (mkResp [] (Some (KeyStoreResource.created data entry))))).
Proof.
  intros Hok Hdec. split_and!; intros data url name Hurl Hpost Hlist; subst url name.
  - unfold result, ScriptResource.Create, http.NewRequest, fail.
    destruct (ScriptResource.create_body data) as [ds body]. cbn [fst snd] in *.
    rewrite Hurl. cbn [run]. rewrite Hpost, Hok.
    change (negb (http.StatusOK =? http.StatusOK)) with false. cbn [run].
    rewrite Hlist, Hdec. split.
    + intros Hnone%find_none_Forall. by rewrite Hnone.
    + intros entry Hfirst%find_first_with. rewrite Hfirst.
      by destruct (ScriptResource.created _ _ _ _ _).
  - unfold result, ScriptSnippetResource.Create, http.NewRequest, fail.
    rewrite Hurl. cbn [run]. rewrite Hpost, Hok.
    change (negb (http.StatusOK =? http.StatusOK)) with false. cbn [run].
    rewrite Hlist, Hdec. split.
    + intros Hnone%find_none_Forall. by rewrite Hnone.
    + intros entry Hfirst%find_first_with. by rewrite Hfirst.
  - unfold result, KeyStoreResource.Create, http.NewRequest, fail.
    rewrite Hurl. cbn [run]. rewrite Hpost, Hok.
    change (negb (http.StatusOK =? http.StatusOK)) with false. cbn [run].
    rewrite Hlist, Hdec. split.
    + intros Hnone%find_none_Forall. by rewrite Hnone.
    + intros entry Hfirst%find_first_with. by rewrite Hfirst.
Qed.

End Created.

(** X5 at a concrete server that rejects the POST of a keystore entry. *)
Lemma Create_stops_at_rejected_post_witness :
  exchanges Scenario.replay
    (KeyStoreResource.Create (H := Scenario.golib) Scenario.client Cases.key_plan)
    [inr Cases.rejected_post; inr Cases.listing_with_status_500]
  = [(http.mkRequest "POST" "https://rmm.example.com/core/keystore/"
        (Some (KeyStoreResource.create_body Cases.key_plan)),
      inr Cases.rejected_post)].
Proof.
  unfold exchanges.
  by rewrite (proj2 (proj2 (Create_stops_at_rejected_post (H := Scenario.golib)
                              Scenario.replay Scenario.client
                              [inr Cases.rejected_post; inr Cases.listing_with_status_500]
                              [inr Cases.listing_with_status_500] Cases.rejected_post
                              ltac:(done)))
                Cases.key_plan eq_refl eq_refl).
Defined.

(** X6 at a concrete server: the list comes with status 500, and the second
    of its records has the planned name. *)
Lemma Create_finds_first_by_name_witness :
  result Scenario.replay
    (KeyStoreResource.Create (H := Scenario.golib) Scenario.client Cases.key_plan)
    [inr Cases.accepted; inr Cases.listing_with_status_500]
  = Some (mkResp [] (Some Cases.key_created)).
Proof.
  apply (proj2 (proj2 (proj2 (Create_finds_first_by_name (H := Scenario.golib)
                                Scenario.replay Scenario.client
                                [inr Cases.accepted; inr Cases.listing_with_status_500]
                                [inr Cases.listing_with_status_500] []
                                Cases.accepted Cases.listing_with_status_500
                                [Cases.key_j; Cases.key_k] eq_refl eq_refl))
                  Cases.key_plan eq_refl eq_refl eq_refl)
           Cases.key_k).
  exists [Cases.key_j], []. split; [reflexivity|]. split; [reflexivity|].
  by repeat constructor.
Defined.

(** ** Read: the identifier, and reading twice *)

Lemma read_list_idempotent (old l : types.List) (v : option json) :
  ScriptResource.read_list old v = Some l → ScriptResource.read_list l v = Some l.
Proof.
  unfold ScriptResource.read_list. destruct (as_slice v) as [[|x xs]|]; congruence.
Qed.

Lemma script_refreshed_id data record st :
  ScriptResource.refreshed data record = Some st →
  ScriptResource.Id st = ScriptResource.Id data.
Proof.
  unfold ScriptResource.refreshed.
  destruct (ScriptResource.read_list (ScriptResource.Args data) _); [|done].
  destruct (ScriptResource.read_list (ScriptResource.EnvVars data) _); [|done].
  destruct (ScriptResource.read_list (ScriptResource.SupportedPlatforms data) _);
    [|done].
  cbn. by intros [= <-].
Qed.

(** Refreshing a state from the record it was refreshed from changes
    nothing. *)
Lemma script_refreshed_idempotent data record st :
  ScriptResource.refreshed data record = Some st →
  ScriptResource.refreshed st record = Some st.
Proof.
  unfold ScriptResource.refreshed.
  destruct (ScriptResource.read_list (ScriptResource.Args data) _) as [a|] eqn:Ha;
    [|done].
  destruct (ScriptResource.read_list (ScriptResource.EnvVars data) _) as [e|] eqn:He;
    [|done].
  destruct (ScriptResource.read_list (ScriptResource.SupportedPlatforms data) _)
    as [p|] eqn:Hp; [|done].
  cbn -[ScriptResource.read_list]. intros [= <-]. cbn -[ScriptResource.read_list].
  rewrite (read_list_idempotent _ _ _ Ha), (read_list_idempotent _ _ _ He),
    (read_list_idempotent _ _ _ Hp).
  cbn. f_equal.
  unfold ScriptResource.read_string, ScriptResource.read_nonempty_string,
    ScriptResource.read_int64, ScriptResource.read_bool.
  f_equal; repeat case_match; congruence.
Qed.

Lemma snippet_refreshed_idempotent data record :
  ScriptSnippetResource.refreshed (ScriptSnippetResource.refreshed data record) record
  = ScriptSnippetResource.refreshed data record.
Proof.
  unfold ScriptSnippetResource.refreshed, ScriptSnippetResource.read_string. cbn.
  f_equal; by case_match.
Qed.

Lemma keystore_refreshed_idempotent data entries st :
  KeyStoreResource.refreshed data entries = Some st →
  KeyStoreResource.refreshed st entries = Some st.
Proof.
  unfold KeyStoreResource.refreshed.
  destruct (List.find (has_id (types.ValueInt64 (KeyStoreResource.Id data))) entries)
    as [entry|] eqn:Hfind; [|done].
  intros [= <-]. cbn. rewrite Hfind. f_equal.
  unfold KeyStoreResource.read_string. f_equal; by case_match.
Qed.

Section ReadTwice.
Context `{GoLib} {server : Type}.
Variable serve : ClientConfig → http.Request → server → (error + http.Response) * server.

(** X7: a Read never changes the identifier: whenever the Read of a
    resource leaves a state, the state holds the id of the prior state. *)
Theorem Read_keeps_id c (w : server) :
  (∀ data resp st,
     result serve (ScriptResource.Read c data) w = Some resp →
     State resp = Some st → ScriptResource.Id st = ScriptResource.Id data)
  ∧ (∀ data resp st,
       result serve (ScriptSnippetResource.Read c data) w = Some resp →
       State resp = Some st →
       ScriptSnippetResource.Id st = ScriptSnippetResource.Id data)
  ∧ (∀ data resp st,
       result serve (KeyStoreResource.Read c data) w = Some resp →
       State resp = Some st → KeyStoreResource.Id st = KeyStoreResource.Id data).
Proof.
  split_and!; intros data resp st.
  - unfold result, ScriptResource.Read, http.NewRequest, fail.
    destruct (url_error _); cbn [run fst]; [by intros [= <-] [= <-]|].
    destruct (serve _ _ w) as [[err|httpResp] w1]; cbn [run fst];
      [by intros [= <-] [= <-]|].
    destruct (_ =? http.StatusNotFound); cbn [run fst]; [by intros [= <-]|].
    destruct (negb _); cbn [run fst]; [by intros [= <-] [= <-]|].
    destruct (decode_map _) as [err|record]; cbn [run fst];
      [by intros [= <-] [= <-]|].
    destruct (ScriptResource.refreshed data record) as [st'|] eqn:Href;
      cbn [run fst]; [|done].
    intros [= <-] [= <-]. by eapply script_refreshed_id.
  - unfold result, ScriptSnippetResource.Read, http.NewRequest, fail.
    destruct (url_error _); cbn [run fst]; [by intros [= <-] [= <-]|].
    destruct (serve _ _ w) as [[err|httpResp] w1]; cbn [run fst];
      [by intros [= <-] [= <-]|].
    destruct (_ =? http.StatusNotFound); cbn [run fst]; [by intros [= <-]|].
    destruct (negb _); cbn [run fst]; [by intros [= <-] [= <-]|].
    destruct (decode_map _) as [err|record]; cbn [run fst];
      by intros [= <-] [= <-].
  - unfold result, KeyStoreResource.Read, http.NewRequest, fail.
    destruct (url_error _); cbn [run fst]; [by intros [= <-] [= <-]|].
    destruct (serve _ _ w) as [[err|httpResp] w1]; cbn [run fst];
      [by intros [= <-] [= <-]|].
    destruct (negb _); cbn [run fst]; [by intros [= <-] [= <-]|].
    destruct (decode_maps _) as [err|entries]; cbn [run fst];
      [by intros [= <-] [= <-]|].
    unfold KeyStoreResource.refreshed.
    destruct (List.find _ entries); cbn [run fst]; [|by intros [= <-]].
    by intros [= <-] [= <-].
Qed.

(** X8: reading twice is reading once: when a Read got a response and left
    a state without any diagnostic, a Read from that state that gets the
    same response leaves the same state, again without a diagnostic. *)
Theorem Read_idempotent c (w w1 w' w1' : server) resp :
  (∀ data st,
     let get := http.mkRequest "GET"
                  (ScriptResource.entity_url c (ScriptResource.Id data)) None in
     url_error (http.URL get) = None →
     serve c get w = (inr resp, w1) →
     serve c get w' = (inr resp, w1') →
     result serve (ScriptResource.Read c data) w = Some (mkResp [] (Some st)) →
     result serve (ScriptResource.Read c st) w' = Some (mkResp [] (Some st)))
  ∧ (∀ data st,
       let get := http.mkRequest "GET"
                    (ScriptSnippetResource.entity_url c (ScriptSnippetResource.Id data))
                    None in
       url_error (http.URL get) = None →
       serve c get w = (inr resp, w1) →
       serve c get w' = (inr resp, w1') →
       result serve (ScriptSnippetResource.Read c data) w = Some (mkResp [] (Some st)) →
       result serve (ScriptSnippetResource.Read c st) w' = Some (mkResp [] (Some st)))
  ∧ (∀ data st,
       let get := http.mkRequest "GET" (BaseURL c +:+ "/core/keystore/") None in
       url_error (http.URL get) = None →
       serve c get w = (inr resp, w1) →
       serve c get w' = (inr resp, w1') →
       result serve (KeyStoreResource.Read c data) w = Some (mkResp [] (Some st)) →
       result serve (KeyStoreResource.Read c st) w' = Some (mkResp [] (Some st))).
Proof.
  split_and!; intros data st get Hurl Hget Hget'; subst get; cbn [http.URL] in Hurl.
  - unfold result, ScriptResource.Read, http.NewRequest, fail.
    rewrite Hurl. cbn [run]. rewrite Hget. cbn [fst].
    destruct (_ =? http.StatusNotFound) eqn:H404; [done|].
    destruct (negb _) eqn:H200; [done|].
    destruct (decode_map _) as [err|record] eqn:Hdec; [done|].
    destruct (ScriptResource.refreshed data record) as [st'|] eqn:Href; [|done].
    cbn [run fst]. intros [= <-].
    rewrite (script_refreshed_id _ _ _ Href), Hurl. cbn [run]. rewrite Hget'.
    rewrite H404, H200, Hdec.
    by rewrite (script_refreshed_idempotent _ _ _ Href).
  - unfold result, ScriptSnippetResource.Read, http.NewRequest, fail.
    rewrite Hurl. cbn [run]. rewrite Hget. cbn [fst].
    destruct (_ =? http.StatusNotFound) eqn:H404; [done|].
    destruct (negb _) eqn:H200; [done|].
    destruct (decode_map _) as [err|record] eqn:Hdec; [done|].
    cbn [run fst]. intros [= <-].
    cbn [ScriptSnippetResource.refreshed ScriptSnippetResource.Id].
    rewrite Hurl. cbn [run]. rewrite Hget'. cbn [fst].
    rewrite H404, H200, Hdec. cbn [run fst].
    by rewrite <- (snippet_refreshed_idempotent data record) at 2.
  - unfold result, KeyStoreResource.Read, http.NewRequest, fail.
    rewrite Hurl. cbn [run]. rewrite Hget, Hget'. cbn [fst].
    destruct (negb _); [done|].
    destruct (decode_maps _) as [err|entries]; [done|].
    destruct (KeyStoreResource.refreshed data entries) as [st'|] eqn:Href; [|done].
    cbn [run fst]. intros [= <-].
    by rewrite (keystore_refreshed_idempotent _ _ _ Href).
Qed.

End ReadTwice.

(** X8 at a concrete server: the script was edited on the server; the first
    Read takes the lists of the server, the second Read changes nothing. *)
Lemma Read_idempotent_witness :
  result Scenario.replay
    (ScriptResource.Read (H := Scenario.golib) Scenario.client Scenario.tri_created)
    [Scenario.edited_reply]
  = Some (mkResp [] (Some Scenario.tri_edited))
  ∧ result Scenario.replay
      (ScriptResource.Read (H := Scenario.golib) Scenario.client Scenario.tri_edited)
      [Scenario.edited_reply]
    = Some (mkResp [] (Some Scenario.tri_edited)).
Proof.
  split; [reflexivity|].
  apply (proj1 (Read_idempotent (H := Scenario.golib) Scenario.replay Scenario.client
                  [Scenario.edited_reply] [] [Scenario.edited_reply] []
                  (http.mkResponse 200
                     (http.mkBody
                        (Scenario.text
                           (Scenario.stored_script [Scenario.DString "-Verbose"]
                              [Scenario.DString "A=1"]))
                        (inr (Scenario.decoded
                                (Scenario.stored_script [Scenario.DString "-Verbose"]
                                   [Scenario.DString "A=1"]))))))
           Scenario.tri_created Scenario.tri_edited eq_refl eq_refl eq_refl eq_refl).
Defined.

(** ** Lists: what Create sends and what it reads back *)

Lemma mapM_known_string (elems : list types.String) (xs : list string) :
  mapM known_string elems = Some xs → elems = types.Known <$> xs.
Proof.
  rewrite mapM_Some. induction 1 as [|v x elems xs Hv _ IH]; [done|].
  cbn. rewrite <- IH. destruct v; try done. by injection Hv as ->.
Qed.

Section RoundTrip.
Context `{GoLib}.

(** A list that converts without a diagnostic is a known list of known
    strings. *)
Lemma ElementsAs_clean (l : types.List) :
  types.IsNull l = false → (ElementsAs l).1 = [] →
  ∃ xs, l = types.Known (types.Known <$> xs) ∧ (ElementsAs l).2 = Some xs.
Proof.
  destruct l as [| |elems]; [done|done|]. intros _. unfold ElementsAs.
  destruct (mapM known_string elems) as [xs|] eqn:Hm; [|done].
  intros _. exists xs. by rewrite (mapM_known_string _ _ Hm).
Qed.

Lemma created_list_echo (xs : list string) :
  ScriptResource.created_list false (types.Known (types.Known <$> xs))
    (Some (JStrings (Some xs)))
  = Some (types.Known (types.Known <$> xs)).
Proof.
  unfold ScriptResource.created_list, JStrings, types.ListValueMust. cbn [negb as_slice].
  assert (mapM id (attr_values (JString <$> xs)) = Some (types.Known <$> xs)) as ->; [|done].
  apply mapM_Some. unfold attr_values. rewrite <- list_fmap_compose.
  induction xs as [|x xs IH]; by constructor.
Qed.

Lemma array_fields_lookup f data (body : gmap string json) :
  body !! field_key f = None →
  (ScriptResource.array_fields data body).2 !! field_key f
  = if types.IsNull (field_of f data) then None
    else Some (JStrings (ElementsAs (field_of f data)).2).
Proof.
  intros Hbody. unfold ScriptResource.array_fields.
  destruct (types.IsNull (ScriptResource.Args data)) eqn:Ha,
    (ElementsAs (ScriptResource.Args data)) as [da xa] eqn:Hxa,
    (types.IsNull (ScriptResource.EnvVars data)) eqn:He,
    (ElementsAs (ScriptResource.EnvVars data)) as [de xe] eqn:Hxe,
    (types.IsNull (ScriptResource.SupportedPlatforms data)) eqn:Hp,
    (ElementsAs (ScriptResource.SupportedPlatforms data)) as [dp xp] eqn:Hxp;
    destruct f; cbn [field_of field_key fst snd] in *;
    rewrite ?Ha, ?He, ?Hp, ?Hxa, ?Hxe, ?Hxp;
    rewrite ?lookup_insert_eq, ?lookup_insert_ne by done;
    rewrite ?lookup_insert_eq; done.
Qed.

Lemma array_fields_clean f data (body : gmap string json) :
  (ScriptResource.array_fields data body).1 = [] →
  types.IsNull (field_of f data) = false →
  (ElementsAs (field_of f data)).1 = [].
Proof.
  unfold ScriptResource.array_fields.
  destruct (types.IsNull (ScriptResource.Args data)) eqn:Ha,
    (ElementsAs (ScriptResource.Args data)) as [da xa] eqn:Hxa,
    (types.IsNull (ScriptResource.EnvVars data)) eqn:He,
    (ElementsAs (ScriptResource.EnvVars data)) as [de xe] eqn:Hxe,
    (types.IsNull (ScriptResource.SupportedPlatforms data)) eqn:Hp,
    (ElementsAs (ScriptResource.SupportedPlatforms data)) as [dp xp] eqn:Hxp;
    cbn [fst snd]; intros Hds Hf; destruct f; cbn [field_of] in Hf |- *;
    try congruence; rewrite ?Hxa, ?Hxe, ?Hxp; cbn [fst];
    repeat (apply app_eq_nil in Hds as [? Hds]); by subst.
Qed.

(** X9: what Create sends for a list is what it reads back.  When the lists
    of the plan convert without a diagnostic and the record that Create finds
    carries, under args, env_vars and supported_platforms, what the POST
    carried under these keys, every list of the written state is the list of
    the plan. *)
Theorem Create_lists_round_trip data (record : gmap string json) st f :
  (ScriptResource.create_body data).1 = [] →
  record !! field_key f = (ScriptResource.create_body data).2 !! field_key f →
  ScriptResource.created data record
    (types.IsNull (ScriptResource.Args data))
    (types.IsNull (ScriptResource.EnvVars data))
    (types.IsNull (ScriptResource.SupportedPlatforms data)) = Some st →
  field_of f st = field_of f data.
Proof.
  unfold ScriptResource.create_body. intros Hds Hecho Hcreated%(created_field f).
  rewrite array_fields_lookup in Hecho.
  2:{ rewrite optional_fields_frame by (destruct f; fresh_key).
      rewrite !lookup_insert_ne by (by destruct f). apply lookup_empty. }
  destruct (types.IsNull (field_of f data)) eqn:Hnull.
  - destruct (field_of f data); try done. cbn in Hcreated. congruence.
  - apply (array_fields_clean f) in Hds; [|done].
    destruct (ElementsAs_clean _ Hnull Hds) as (xs & Hplanned & Hsent).
    rewrite Hecho, Hsent, Hplanned in Hcreated. cbn [types.IsNull] in Hcreated.
    rewrite created_list_echo in Hcreated. congruence.
Qed.

End RoundTrip.

(** X9 at a concrete plan: one argument and two platforms are sent, the
    server reports them as sent, and the state holds the platforms of the
    plan. *)
Lemma Create_lists_round_trip_witness :
  ScriptResource.created Cases.listed_plan Cases.listed_record false true false
  = Some Cases.listed_created
  ∧ field_of supported_platforms Cases.listed_created
    = types.Known [types.Known "windows"; types.Known "linux"].
Proof.
  split; [reflexivity|].
  apply (Create_lists_round_trip (H := Scenario.golib) Cases.listed_plan
           Cases.listed_record Cases.listed_created supported_platforms
           eq_refl eq_refl eq_refl).
Defined.

(** ** Singular data sources: the lookup by name *)

Lemma has_name_string_or (name : string) (old : types.String) (entry : gmap string json) :
  has_name name entry = true → string_or old (entry !! "name") = types.Known name.
Proof.
  unfold has_name, string_or. destruct (as_string (entry !! "name")) as [s|]; [|done].
  by intros ->%bool_decide_eq_true.
Qed.

Section ByName.
Context `{GoLib} {server : Type}.
Variable serve : ClientConfig → http.Request → server → (error + http.Response) * server.

(** X10: a singular data source that is given a name and no id lists the
    collection and takes the first record with that name.  Without such a
    record it reports a not-found error that quotes the name and writes no
    state; with one, the state is filled from that record, and its name is
    the name asked for. *)
Theorem singular_lookup_by_name c (w w1 : server) resp entries :
  http.StatusCode resp = http.StatusOK →
  decode_maps (http.body resp) = inr entries →
  (∀ data,
     let name := types.ValueString (ScriptDataSource.Name data) in
     types.IsNull (ScriptDataSource.Id data) = true →
     types.IsNull (ScriptDataSource.Name data) = false →
     url_error (BaseURL c +:+ "/scripts/") = None →
     serve c (http.mkRequest "GET" (BaseURL c +:+ "/scripts/") None) w = (inr resp, w1) →
     (Forall (λ entry, has_name name entry = false) entries →
        result serve (ScriptDataSource.Read c data) w
        = Some (mkResp
                  [diag.mk diag.SeverityError "Script Not Found"
                     ("Script with name '" +:+ name +:+ "' not found")]
                  None))
     ∧ (∀ entry,
          first_with (has_name name) entry entries →
          result serve (ScriptDataSource.Read c data) w
          = (st ← ScriptDataSource.populated data entry; Some (mkResp [] (Some st)))
          ∧ ∀ st, ScriptDataSource.populated data entry = Some st →
                  ScriptDataSource.Name st = types.Known name))
  ∧ (∀ data,
       let name := types.ValueString (ScriptSnippetDataSource.Name data) in
       types.IsNull (ScriptSnippetDataSource.Id data) = true →
       types.IsNull (ScriptSnippetDataSource.Name data) = false →
       url_error (BaseURL c +:+ "/scripts/snippets/") = None →
       serve c (http.mkRequest "GET" (BaseURL c +:+ "/scripts/snippets/") None) w
         = (inr resp, w1) →
       (Forall (λ entry, has_name name entry = false) entries →
          result serve (ScriptSnippetDataSource.Read c data) w
          = Some (mkResp
                    [diag.mk diag.SeverityError "Script Snippet Not Found"
                       ("Script snippet with name '" +:+ name +:+ "' not found")]
                    None))
       ∧ (∀ entry,
            first_with (has_name name) entry entries →
            result serve (ScriptSnippetDataSource.Read c data) w
            = Some (mkResp [] (Some (ScriptSnippetDataSource.populated data entry)))
            ∧ ScriptSnippetDataSource.Name (ScriptSnippetDataSource.populated data entry)
              = types.Known name))
  ∧ (∀ data,
       let name := types.ValueString (KeyStoreDataSource.Name data) in
       types.IsNull (KeyStoreDataSource.Id data) = true →
       types.IsNull (KeyStoreDataSource.Name data) = false →
       url_error (BaseURL c +:+ "/core/keystore/") = None →
       serve c (http.mkRequest "GET" (BaseURL c +:+ "/core/keystore/") None) w
         = (inr resp, w1) →
       (Forall (λ entry, has_name name entry = false) entries →
          result serve (KeyStoreDataSource.Read c data) w
          = Some (mkResp
                    [diag.mk diag.SeverityError "KeyStore Entry Not Found"
                       ("KeyStore entry with name '" +:+ name +:+ "' not found")]
                    None))
       ∧ (∀ entry,
            first_with (has_name name) entry entries →
            result serve (KeyStoreDataSource.Read c data) w
            = Some (mkResp [] (Some (KeyStoreDataSource.populated data entry)))
            ∧ KeyStoreDataSource.Name (KeyStoreDataSource.populated data entry)
              = types.Known name)).
Proof.
  intros Hok Hdec. split_and!; intros data name Hid Hname Hurl Hget; subst name.
  - assert (∀ found,
              List.find (has_name (types.ValueString (ScriptDataSource.Name data))) entries
                = found →
              result serve (ScriptDataSource.Read c data) w
              = match found with
                | None =>
                    Some (mkResp
                            [diag.mk diag.SeverityError "Script Not Found"
                               ("Script with name '"
                                  +:+ types.ValueString (ScriptDataSource.Name data)
                                  +:+ "' not found")] None)
                | Some entry =>
                    st ← ScriptDataSource.populated data entry;
                    Some (mkResp [] (Some st))
                end) as Hrun.
    { intros found Hfound.
      unfold result, ScriptDataSource.Read, http.NewRequest, fail.
      rewrite Hid, Hname. cbn [andb negb]. rewrite Hurl. cbn [run].
      rewrite Hget, Hok. simpl. rewrite Hdec, Hfound.
      destruct found as [entry|]; [|done].
      by destruct (ScriptDataSource.populated data entry). }
    split.
    + intros Hnone%find_none_Forall. by rewrite (Hrun _ Hnone).
    + intros entry Hfirst. pose proof Hfirst as (_ & _ & _ & Hentry & _).
      apply find_first_with in Hfirst. rewrite (Hrun _ Hfirst). split; [done|].
      intros st. unfold ScriptDataSource.populated.
      destruct (list_or_null (entry !! "args")); [|done].
      destruct (list_or_null (entry !! "env_vars")); [|done].
      destruct (list_or_null (entry !! "supported_platforms")); [|done].
      cbn. intros [= <-]. cbn. by apply has_name_string_or.
  - assert (∀ found,
              List.find (has_name (types.ValueString (ScriptSnippetDataSource.Name data)))
                entries = found →
              result serve (ScriptSnippetDataSource.Read c data) w
              = match found with
                | None =>
                    Some (mkResp
                            [diag.mk diag.SeverityError "Script Snippet Not Found"
                               ("Script snippet with name '"
                                  +:+ types.ValueString (ScriptSnippetDataSource.Name data)
                                  +:+ "' not found")] None)
                | Some entry =>
                    Some (mkResp [] (Some (ScriptSnippetDataSource.populated data entry)))
                end) as Hrun.
    { intros found Hfound.
      unfold result, ScriptSnippetDataSource.Read, http.NewRequest, fail.
      rewrite Hid, Hname. cbn [andb negb]. rewrite Hurl. cbn [run].
      rewrite Hget, Hok. simpl. rewrite Hdec, Hfound. by destruct found. }
    split.
    + intros Hnone%find_none_Forall. by rewrite (Hrun _ Hnone).
    + intros entry Hfirst. pose proof Hfirst as (_ & _ & _ & Hentry & _).
      apply find_first_with in Hfirst. rewrite (Hrun _ Hfirst). split; [done|].
      cbn. by apply has_name_string_or.
  - assert (∀ found,
              List.find (has_name (types.ValueString (KeyStoreDataSource.Name data)))
                entries = found →
              result serve (KeyStoreDataSource.Read c data) w
              = match found with
                | None =>
                    Some (mkResp
                            [diag.mk diag.SeverityError "KeyStore Entry Not Found"
                               ("KeyStore entry with name '"
                                  +:+ types.ValueString (KeyStoreDataSource.Name data)
                                  +:+ "' not found")] None)
                | Some entry =>
                    Some (mkResp [] (Some (KeyStoreDataSource.populated data entry)))
                end) as Hrun.
    { intros found Hfound.
      unfold result, KeyStoreDataSource.Read, http.NewRequest, fail.
      rewrite Hid, Hname. cbn [andb negb]. rewrite Hurl. cbn [run].
      rewrite Hget, Hok. simpl. rewrite Hdec.
      unfold KeyStoreDataSource.find_entry. rewrite Hid. cbn [negb].
      rewrite Hfound. by destruct found. }
    split.
    + intros Hnone%find_none_Forall. by rewrite (Hrun _ Hnone).
    + intros entry Hfirst. pose proof Hfirst as (_ & _ & _ & Hentry & _).
      apply find_first_with in Hfirst. rewrite (Hrun _ Hfirst). split; [done|].
      cbn. by apply has_name_string_or.
Qed.

End ByName.

(** X10 at a concrete server: the keystore holds the entries j and k, the
    query asks for k and gets the second entry. *)
Lemma singular_lookup_by_name_witness :
  result Scenario.replay
    (KeyStoreDataSource.Read (H := Scenario.golib) Scenario.client Cases.key_query)
    [inr Cases.key_listing]
  = Some (mkResp [] (Some Cases.key_found)).
Proof.
  apply (proj2 (proj2 (proj2 (singular_lookup_by_name (H := Scenario.golib)
                                Scenario.replay Scenario.client
                                [inr Cases.key_listing] []
                                Cases.key_listing
                                [Cases.key_j; Cases.key_k] eq_refl eq_refl))
                  Cases.key_query eq_refl eq_refl eq_refl eq_refl)
           Cases.key_k).
  exists [Cases.key_j], []. split; [reflexivity|]. split; [reflexivity|].
  by repeat constructor.
Defined.

(** ** Plural data sources: the name filter *)

Lemma has_name_spec (name : string) (entry : gmap string json) :
  has_name name entry = true ↔ as_string (entry !! "name") = Some name.
Proof.
  unfold has_name. destruct (as_string (entry !! "name")) as [s|]; [|done].
  rewrite bool_decide_eq_true. split; congruence.
Qed.

Lemma name_filter_spec (filter : types.String) (entries : list (gmap string json)) :
  let selected :=
    if negb (types.IsNull filter) then filter_by_name (types.ValueString filter) entries
    else entries in
  (∀ entry, entry ∈ selected ↔ entry ∈ entries ∧ string_filter_ok filter (entry !! "name"))
  ∧ sublist selected entries
  ∧ (types.IsNull filter = true → selected = entries)
  ∧ (types.IsNull filter = false →
     Forall (λ entry, string_or types.Null (entry !! "name")
                      = types.Known (types.ValueString filter)) selected).
Proof.
  unfold string_filter_ok, filter_by_name.
  destruct (types.IsNull filter) eqn:Hnull; cbn [negb]; split_and!; try done.
  - intros entry. split; [|tauto]. by intros Hin.
  - intros entry. rewrite elem_of_filter_bool, has_name_spec. split; [tauto|].
    intros [Hin Hname]. split; [done|by apply Hname].
  - apply filter_sublist.
  - intros _. apply Forall_forall. intros entry [_ Hname]%elem_of_filter_bool.
    by apply has_name_string_or.
Qed.

Section PluralNames.
Context `{GoLib} {server : Type}.
Variable serve : ClientConfig → http.Request → server → (error + http.Response) * server.

(** X11: without an id filter, the plural snippets and keystores data
    sources keep, in the order of the server, exactly the records whose name
    is the name filter, and the whole collection when no name filter is set;
    every element of a result filtered by name carries that name. *)
Theorem plural_name_filter c (w w1 : server) resp entries :
  http.StatusCode resp = http.StatusOK →
  decode_maps (http.body resp) = inr entries →
  (∀ data,
     types.IsNull (ScriptSnippetsDataSource.Id data) = true →
     url_error (BaseURL c +:+ "/scripts/snippets/") = None →
     serve c (http.mkRequest "GET" (BaseURL c +:+ "/scripts/snippets/") None) w
       = (inr resp, w1) →
     let filter := ScriptSnippetsDataSource.Name data in
     let selected := ScriptSnippetsDataSource.filteredSnippets data entries in
     (∀ entry,
        entry ∈ selected ↔ entry ∈ entries ∧ string_filter_ok filter (entry !! "name"))
     ∧ sublist selected entries
     ∧ (types.IsNull filter = true → selected = entries)
     ∧ (types.IsNull filter = false →
        Forall (λ snippet, ScriptSnippetModel.Name snippet
                           = types.Known (types.ValueString filter))
          (ScriptSnippetModel.of_map <$> selected))
     ∧ result serve (ScriptSnippetsDataSource.Read c data) w
       = Some (mkResp []
                 (Some {| ScriptSnippetsDataSource.Id := ScriptSnippetsDataSource.Id data;
                          ScriptSnippetsDataSource.Name := filter;
                          ScriptSnippetsDataSource.Snippets :=
                            types.Known (ScriptSnippetModel.of_map <$> selected) |})))
  ∧ (∀ data,
       types.IsNull (KeyStoresDataSource.Id data) = true →
       url_error (BaseURL c +:+ "/core/keystore/") = None →
       serve c (http.mkRequest "GET" (BaseURL c +:+ "/core/keystore/") None) w
         = (inr resp, w1) →
       let filter := KeyStoresDataSource.Name data in
       let selected := KeyStoresDataSource.filteredEntries data entries in
       (∀ entry,
          entry ∈ selected ↔ entry ∈ entries ∧ string_filter_ok filter (entry !! "name"))
       ∧ sublist selected entries
       ∧ (types.IsNull filter = true → selected = entries)
       ∧ (types.IsNull filter = false →
          Forall (λ key, KeyStoreModel.Name key = types.Known (types.ValueString filter))
            (KeyStoreModel.of_map <$> selected))
       ∧ result serve (KeyStoresDataSource.Read c data) w
         = Some (mkResp []
                   (Some {| KeyStoresDataSource.Id := KeyStoresDataSource.Id data;
                            KeyStoresDataSource.Name := filter;
                            KeyStoresDataSource.Keystores :=
                              types.Known (KeyStoreModel.of_map <$> selected) |}))).
Proof.
  intros Hok Hdec. split; intros data Hid Hurl Hget filter selected.
  - destruct (name_filter_spec filter entries) as (Hiff & Hsub & Hall & Hnames).
    assert (selected
            = if negb (types.IsNull filter)
              then filter_by_name (types.ValueString filter) entries else entries) as ->.
    { unfold selected, ScriptSnippetsDataSource.filteredSnippets. by rewrite Hid. }
    split_and!; try done.
    + intros Hset. rewrite Forall_fmap. by apply Hnames.
    + unfold result, ScriptSnippetsDataSource.Read, http.NewRequest, fail.
      rewrite Hurl. cbn [run]. rewrite Hget, Hok. simpl. rewrite Hdec.
      unfold ScriptSnippetsDataSource.filteredSnippets. by rewrite Hid.
  - destruct (name_filter_spec filter entries) as (Hiff & Hsub & Hall & Hnames).
    assert (selected
            = if negb (types.IsNull filter)
              then filter_by_name (types.ValueString filter) entries else entries) as ->.
    { unfold selected, KeyStoresDataSource.filteredEntries. by rewrite Hid. }
    split_and!; try done.
    + intros Hset. rewrite Forall_fmap. by apply Hnames.
    + unfold result, KeyStoresDataSource.Read, http.NewRequest, fail.
      rewrite Hurl. cbn [run]. rewrite Hget, Hok. simpl. rewrite Hdec.
      unfold KeyStoresDataSource.filteredEntries. by rewrite Hid.
Qed.

End PluralNames.

(** X11 at a concrete server: of the entries j and k, the query by the name
    k keeps the entry k. *)
Lemma plural_name_filter_witness :
  result Scenario.replay
    (KeyStoresDataSource.Read (H := Scenario.golib) Scenario.client Cases.keys_query)
    [inr Cases.key_listing]
  = Some (mkResp []
            (Some {| KeyStoresDataSource.Id := types.Null;
                     KeyStoresDataSource.Name := types.Known "k";
                     KeyStoresDataSource.Keystores :=
                       types.Known
                         [KeyStoreModel.mk (types.Known 5) (types.Known "k")
                            (types.Known "v")] |})).
Proof.
  apply (proj2 (proj2 (proj2 (proj2
           (proj2 (plural_name_filter (H := Scenario.golib)
                     Scenario.replay Scenario.client
                     [inr Cases.key_listing] [] Cases.key_listing
                     [Cases.key_j; Cases.key_k] eq_refl eq_refl)
              Cases.keys_query eq_refl eq_refl eq_refl))))).
Defined.

(** ** Calls that fail *)

Lemma stops_run {M server}
    (serve : ClientConfig → http.Request → server → (error + http.Response) * server)
    (initial : option M) (p : prog (Response M)) :
  stops_at_failed_call initial p → ∀ w, failed_call_ends initial (run serve p w).
Proof.
  induction p as [a|c req k IH|]; intros Hstops w log req0 err rest Hlog.
  - by destruct log.
  - destruct Hstops as [Hfailed Hnext]. cbn [run] in *.
    destruct (serve c req w) as [r w1].
    destruct (run serve (k r) w1) as [[a w2] lg] eqn:Hrun. cbn [fst snd] in *.
    destruct r as [err'|resp].
    + destruct (Hfailed err') as (ds & Hk & Hreports). rewrite Hk in Hrun.
      cbn [run] in Hrun. injection Hrun as <- <- <-.
      destruct log as [|e [|e' log]]; [|done|done].
      injection Hlog as <- <- <-. eauto.
    + destruct log as [|e log]; [done|]. injection Hlog as <- Hlog.
      specialize (IH (inr resp) (Hnext resp) w1 log req0 err rest).
      rewrite Hrun in IH. by apply IH.
  - by destruct log.
Qed.

(** Decides the tests of a handler one after the other, down to each call
    and each leaf. *)
Ltac stops :=
  unfold http.NewRequest, fail;
  repeat first
    [ exact I
    | progress cbn [stops_at_failed_call]
    | split; [intros ?err; eexists; split; [reflexivity|by eexists _, _]|intros ?resp]
    | match goal with
      | |- context [url_error ?u] => destruct (url_error u)
      | |- stops_at_failed_call _ (match ?x with _ => _ end) => destruct x
      | |- stops_at_failed_call _ (if ?x then _ else _) => destruct x
      | |- stops_at_failed_call _ (let (_, _) := ?x in _) => destruct x
      end ].

Section FailedCalls.
Context `{GoLib} {server : Type}.
Variable serve : ClientConfig → http.Request → server → (error + http.Response) * server.

Lemma script_Create_stops c data :
  stops_at_failed_call None (ScriptResource.Create c data).
Proof. unfold ScriptResource.Create. stops. Qed.

Lemma script_Read_stops c data :
  stops_at_failed_call (Some data) (ScriptResource.Read c data).
Proof. unfold ScriptResource.Read. stops. Qed.

Lemma script_Update_stops c plan state :
  stops_at_failed_call (Some state) (ScriptResource.Update c plan state).
Proof. unfold ScriptResource.Update. stops. Qed.

Lemma snippet_Create_stops c data :
  stops_at_failed_call None (ScriptSnippetResource.Create c data).
Proof. unfold ScriptSnippetResource.Create. stops. Qed.

Lemma snippet_Read_stops c data :
  stops_at_failed_call (Some data) (ScriptSnippetResource.Read c data).
Proof. unfold ScriptSnippetResource.Read. stops. Qed.

Lemma snippet_Update_stops c plan state :
  stops_at_failed_call (Some state) (ScriptSnippetResource.Update c plan state).
Proof. unfold ScriptSnippetResource.Update. stops. Qed.

Lemma keystore_Create_stops c data :
  stops_at_failed_call None (KeyStoreResource.Create c data).
Proof. unfold KeyStoreResource.Create. stops. Qed.

Lemma keystore_Read_stops c data :
  stops_at_failed_call (Some data) (KeyStoreResource.Read c data).
Proof. unfold KeyStoreResource.Read. stops. Qed.

Lemma keystore_Update_stops c plan state :
  stops_at_failed_call (Some state) (KeyStoreResource.Update c plan state).
Proof. unfold KeyStoreResource.Update. stops. Qed.

Lemma script_source_stops c data :
  stops_at_failed_call None (ScriptDataSource.Read c data).
Proof. unfold ScriptDataSource.Read. stops. Qed.

Lemma snippet_source_stops c data :
  stops_at_failed_call None (ScriptSnippetDataSource.Read c data).
Proof. unfold ScriptSnippetDataSource.Read. stops. Qed.

Lemma keystore_source_stops c data :
  stops_at_failed_call None (KeyStoreDataSource.Read c data).
Proof. unfold KeyStoreDataSource.Read. stops. Qed.

Lemma scripts_source_stops c data :
  stops_at_failed_call None (ScriptsDataSource.Read c data).
Proof. unfold ScriptsDataSource.Read. stops. Qed.

Lemma snippets_source_stops c data :
  stops_at_failed_call None (ScriptSnippetsDataSource.Read c data).
Proof. unfold ScriptSnippetsDataSource.Read. stops. Qed.

Lemma keystores_source_stops c data :
  stops_at_failed_call None (KeyStoresDataSource.Read c data).
Proof. unfold KeyStoresDataSource.Read. stops. Qed.

(** X12: a call to the server that fails (no response, an error of the
    transport) ends the handler.  In every run of a Create, Read or Update
    of a resource and of a Read of a data source, a failed call is the last
    exchange; the handler then reports a Client Error whose detail ends with
    the text of that error, and leaves the state as it found it: none for a
    Create and for a data source, the prior state for a Read and an Update
    of a resource. *)
Theorem failed_call_ends_handler c (w : server) :
  (∀ data, failed_call_ends None (run serve (ScriptResource.Create c data) w))
  ∧ (∀ data, failed_call_ends (Some data) (run serve (ScriptResource.Read c data) w))
  ∧ (∀ plan state,
       failed_call_ends (Some state) (run serve (ScriptResource.Update c plan state) w))
  ∧ (∀ data, failed_call_ends None (run serve (ScriptSnippetResource.Create c data) w))
  ∧ (∀ data,
       failed_call_ends (Some data) (run serve (ScriptSnippetResource.Read c data) w))
  ∧ (∀ plan state,
       failed_call_ends (Some state)
         (run serve (ScriptSnippetResource.Update c plan state) w))
  ∧ (∀ data, failed_call_ends None (run serve (KeyStoreResource.Create c data) w))
  ∧ (∀ data, failed_call_ends (Some data) (run serve (KeyStoreResource.Read c data) w))
  ∧ (∀ plan state,
       failed_call_ends (Some state) (run serve (KeyStoreResource.Update c plan state) w))
  ∧ (∀ data, failed_call_ends None (run serve (ScriptDataSource.Read c data) w))
  ∧ (∀ data, failed_call_ends None (run serve (ScriptSnippetDataSource.Read c data) w))
  ∧ (∀ data, failed_call_ends None (run serve (KeyStoreDataSource.Read c data) w))
  ∧ (∀ data, failed_call_ends None (run serve (ScriptsDataSource.Read c data) w))
  ∧ (∀ data, failed_call_ends None (run serve (ScriptSnippetsDataSource.Read c data) w))
  ∧ (∀ data, failed_call_ends None (run serve (KeyStoresDataSource.Read c data) w)).
Proof.
  split_and!; intros; apply stops_run;
    auto using script_Create_stops, script_Read_stops, script_Update_stops,
      snippet_Create_stops, snippet_Read_stops, snippet_Update_stops,
      keystore_Create_stops, keystore_Read_stops, keystore_Update_stops,
      script_source_stops, snippet_source_stops, keystore_source_stops,
      scripts_source_stops, snippets_source_stops, keystores_source_stops.
Qed.

End FailedCalls.

(** X12 at a concrete server: the POST of a keystore entry is accepted and
    the list request that follows gets no response. *)
Lemma failed_call_ends_handler_witness :
  ∃ ds,
    result Scenario.replay
      (KeyStoreResource.Create (H := Scenario.golib) Scenario.client Cases.key_plan)
      [inr Cases.accepted; inl "connection refused"]
    = Some (mkResp ds None)
    ∧ reports "connection refused" ds.
Proof.
  apply (proj2 (proj1 (proj2 (proj2 (proj2 (proj2 (proj2 (proj2
           (failed_call_ends_handler (H := Scenario.golib) Scenario.replay
              Scenario.client [inr Cases.accepted; inl "connection refused"])))))))
           Cases.key_plan
           [(http.mkRequest "POST" (BaseURL Scenario.client +:+ "/core/keystore/")
               (Some (KeyStoreResource.create_body Cases.key_plan)),
             inr Cases.accepted)]
           (http.mkRequest "GET" (BaseURL Scenario.client +:+ "/core/keystore/") None)
           "connection refused" [] eq_refl)).
Defined.

(** ** Computed attributes *)

Lemma leaves_run {A server}
    (serve : ClientConfig → http.Request → server → (error + http.Response) * server)
    (P : A → Prop) (p : prog A) :
  leaves P p → ∀ w a, result serve p w = Some a → P a.
Proof.
  unfold result. induction p as [a'|c req k IH|]; cbn [leaves run]; intros Hp w a.
  - by intros [= <-].
  - destruct (serve c req w) as [r w1].
    destruct (run serve (k r) w1) as [[a' w2] lg] eqn:Hrun. cbn [fst].
    intros ->. apply (IH r (Hp r) w1). by rewrite Hrun.
  - done.
Qed.

Lemma HasError_AddError ds summary detail :
  diag.HasError (diag.AddError ds summary detail) = true.
Proof.
  unfold diag.HasError, diag.AddError. rewrite existsb_app. cbn.
  by rewrite orb_true_r.
Qed.

Lemma created_computed_known data record a e p st :
  ScriptResource.created data record a e p = Some st → computed_known st.
Proof.
  unfold ScriptResource.created.
  destruct (ScriptResource.created_list a _ _); [|done].
  destruct (ScriptResource.created_list e _ _); [|done].
  destruct (ScriptResource.created_list p _ _); [|done].
  cbn. intros [= <-]. unfold computed_known. cbn.
  destruct (as_string (record !! "script_type")),
    (as_float64 (record !! "default_timeout")),
    (ScriptResource.DefaultTimeout data),
    (as_bool (record !! "favorite")), (as_bool (record !! "hidden")),
    (as_bool (record !! "run_as_user")); done.
Qed.

Lemma updated_computed_known data record :
  computed_known (ScriptResource.updated data record).
Proof.
  unfold computed_known, ScriptResource.updated, ScriptResource.updated_bool. cbn.
  destruct (as_string (record !! "script_type")),
    (as_float64 (record !! "default_timeout")),
    (ScriptResource.DefaultTimeout data),
    (as_bool (record !! "favorite")), (ScriptResource.Favorite data),
    (as_bool (record !! "hidden")), (ScriptResource.Hidden data),
    (as_bool (record !! "run_as_user")), (ScriptResource.RunAsUser data); done.
Qed.

(** Decides the tests of a handler one after the other, keeping what each
    test found, down to each leaf. *)
Ltac to_leaves :=
  unfold http.NewRequest, fail;
  repeat first
    [ progress cbn [leaves]
    | match goal with
      | |- context [url_error ?u] => destruct (url_error u)
      | |- ∀ r : error + http.Response, _ => intros [?err|?resp]
      | |- leaves _ (match ?x with _ => _ end) => destruct x eqn:?
      | |- leaves _ (if ?x then _ else _) => destruct x eqn:?
      | |- leaves _ (let (_, _) := ?x in _) => destruct x eqn:?
      end ].

Section Computed.
Context `{GoLib} {server : Type}.
Variable serve : ClientConfig → http.Request → server → (error + http.Response) * server.

(** X13: the state that a script Create writes, and the state that a script
    Update leaves without an error diagnostic, hold known values for
    script_type, default_timeout, favorite, hidden and run_as_user, whatever
    the plan holds for them and whatever the server reports. *)
Theorem computed_attributes_known c (w : server) :
  (∀ data r st,
     result serve (ScriptResource.Create c data) w = Some r →
     State r = Some st → computed_known st)
  ∧ (∀ plan state r st,
       result serve (ScriptResource.Update c plan state) w = Some r →
       diag.HasError (Diagnostics r) = false →
       State r = Some st → computed_known st).
Proof.
  split.
  - intros data r st Hrun Hst.
    refine (leaves_run serve (λ r, ∀ st, State r = Some st → computed_known st)
              _ _ w r Hrun st Hst).
    clear. unfold ScriptResource.Create. to_leaves; cbn; try done.
    intros st [= <-]. eauto using created_computed_known.
  - intros plan state r st Hrun Hclean Hst.
    refine (leaves_run serve
              (λ r, diag.HasError (Diagnostics r) = false →
                    ∀ st, State r = Some st → computed_known st)
              _ _ w r Hrun Hclean st Hst).
    clear. unfold ScriptResource.Update. to_leaves; cbn [Diagnostics State];
      rewrite ?HasError_AddError; try done.
    intros _ st [= <-]. apply updated_computed_known.
Qed.

End Computed.

(** ** The headers of a request *)

Section HeaderFacts.
Variable canonical : string → string.

(** X14: what [ClientConfig.Do] does to the headers of a request.  When the
    two header names have different canonical forms, the request leaves with
    the API key of the client as the only value of X-API-KEY and with
    application/json as the only value of Content-Type, whatever values the
    request carried for them, and with every other header as it was. *)
Theorem Do_sets_headers (c : ClientConfig) (h : gmap string (list string)) :
  canonical "X-API-KEY" ≠ canonical "Content-Type" →
  let h' := ClientConfig_Do_Header canonical c h in
  h' !! canonical "X-API-KEY" = Some [APIKey c]
  ∧ h' !! canonical "Content-Type" = Some ["application/json"]
  ∧ Header_Get canonical h' "X-API-KEY" = APIKey c
  ∧ Header_Get canonical h' "Content-Type" = "application/json"
  ∧ ∀ key,
      canonical key ≠ canonical "X-API-KEY" →
      canonical key ≠ canonical "Content-Type" →
      h' !! canonical key = h !! canonical key
      ∧ Header_Get canonical h' key = Header_Get canonical h key.
Proof.
  intros Hdistinct h'. unfold h', ClientConfig_Do_Header, Header_Set, Header_Get.
  split_and!.
  - by rewrite lookup_insert_ne, lookup_insert_eq.
  - by rewrite lookup_insert_eq.
  - by rewrite lookup_insert_ne, lookup_insert_eq.
  - by rewrite lookup_insert_eq.
  - intros key Hkey Htype. by rewrite !lookup_insert_ne.
Qed.

End HeaderFacts.

(** X14 at a concrete request: the stale keys are replaced by the key of
    the client. *)
Lemma Do_sets_headers_witness :
  ClientConfig_Do_Header Cases.canonical Scenario.client Cases.prior_header
    !! "X-Api-Key"
  = Some [APIKey Scenario.client].
Proof.
  refine (proj1 (Do_sets_headers Cases.canonical Scenario.client Cases.prior_header _)).
  by vm_compute.
Defined.

(** ** Update: what the state takes from the plan *)

Section Planned.
Context `{GoLib} {server : Type}.
Variable serve : ClientConfig → http.Request → server → (error + http.Response) * server.

(** X15: the state that an Update leaves without an error diagnostic holds
    the attributes the user sets as the plan has them, whatever the server
    reports for them: for a script all but the five computed attributes, for
    a snippet all but the shell, which holds a known value, and for a
    keystore entry the whole plan; the id is the id of the prior state. *)
Theorem Update_writes_plan c (w : server) :
  (∀ plan state r st,
     result serve (ScriptResource.Update c plan state) w = Some r →
     diag.HasError (Diagnostics r) = false →
     State r = Some st →
     ScriptResource.Id st = ScriptResource.Id state
     ∧ ScriptResource.Name st = ScriptResource.Name plan
     ∧ ScriptResource.Description st = ScriptResource.Description plan
     ∧ ScriptResource.Shell st = ScriptResource.Shell plan
     ∧ ScriptResource.Category st = ScriptResource.Category plan
     ∧ ScriptResource.ScriptBody st = ScriptResource.ScriptBody plan
     ∧ ScriptResource.Syntax st = ScriptResource.Syntax plan
     ∧ ∀ f, field_of f st = field_of f plan)
  ∧ (∀ plan state r st,
       result serve (ScriptSnippetResource.Update c plan state) w = Some r →
       diag.HasError (Diagnostics r) = false →
       State r = Some st →
       ScriptSnippetResource.Id st = ScriptSnippetResource.Id state
       ∧ ScriptSnippetResource.Name st = ScriptSnippetResource.Name plan
       ∧ ScriptSnippetResource.Desc st = ScriptSnippetResource.Desc plan
       ∧ ScriptSnippetResource.Code st = ScriptSnippetResource.Code plan
       ∧ is_known (ScriptSnippetResource.Shell st) = true)
  ∧ (∀ plan state r st,
       result serve (KeyStoreResource.Update c plan state) w = Some r →
       diag.HasError (Diagnostics r) = false →
       State r = Some st →
       st = KeyStoreResource.with_id plan (KeyStoreResource.Id state)).
Proof.
  split_and!; intros plan state r st Hrun Hclean Hst.
  - refine (leaves_run serve
              (λ r, diag.HasError (Diagnostics r) = false →
                    ∀ st, State r = Some st → _)
              _ _ w r Hrun Hclean st Hst).
    clear. unfold ScriptResource.Update. to_leaves; cbn [Diagnostics State];
      rewrite ?HasError_AddError; try done.
    intros _ st [= <-]. cbn. by split_and!.
  - refine (leaves_run serve
              (λ r, diag.HasError (Diagnostics r) = false →
                    ∀ st, State r = Some st → _)
              _ _ w r Hrun Hclean st Hst).
    clear. unfold ScriptSnippetResource.Update. to_leaves; cbn [Diagnostics State];
      rewrite ?HasError_AddError; try done.
    intros _ st [= <-]. cbn. split_and!; try done.
    destruct (as_string _); [done|]. by destruct (ScriptSnippetResource.Shell plan).
  - refine (leaves_run serve
              (λ r, diag.HasError (Diagnostics r) = false →
                    ∀ st, State r = Some st → _)
              _ _ w r Hrun Hclean st Hst).
    clear. unfold KeyStoreResource.Update. to_leaves; cbn [Diagnostics State];
      rewrite ?HasError_AddError; try done.
    by intros _ st [= <-].
Qed.

End Planned.
